(* ===================================================================== *)
(* five9-poller: the agent-state poller of poll.py, embedded in Rocq.    *)
(*                                                                       *)
(* poll.py asks the Five9 supervisor web service for the agent-state     *)
(* table, turns every row of the answer into a flat record and posts     *)
(* the records to a Supabase table.  The embedding keeps the program's   *)
(* shape: an element tree for the parsed XML, a gmap for every Python    *)
(* dict, and a small trace monad for print, requests.post and sys.exit.  *)
(* ===================================================================== *)

From Stdlib Require Import ZArith List Ascii String DecimalString.
From stdpp Require Import gmap strings list fin_maps.

Local Open Scope string_scope.
Local Set Warnings "-register-all".

(* ===================================================================== *)
(* 1. Python strings                                                     *)
(* ===================================================================== *)

Module PyStr.

(** The character that a Python literal writes as a double quote. *)
Definition dq : string := String "034"%char EmptyString.

(** The line break inside the triple-quoted literals of poll.py. *)
Definition nl : string := String "010"%char EmptyString.

(** [str(n)] for a Python int. *)
Definition str_int (z : Z) : string := NilZero.string_of_int (Z.to_int z).

(** [str(len(l))]. *)
Definition str_len {A} (l : list A) : string := str_int (Z.of_nat (length l)).

(** [s[:n]]: the first [n] characters of [s], all of [s] when it is
    shorter. *)
Fixpoint slice_to (n : nat) (s : string) : string :=
  match n, s with
  | O, _ => EmptyString
  | S _, EmptyString => EmptyString
  | S k, String c r => String c (slice_to k r)
  end.

(** [s.startswith(p)]. *)
Fixpoint startswith (p s : string) : bool :=
  match p, s with
  | EmptyString, _ => true
  | String _ _, EmptyString => false
  | String a p', String b s' => Ascii.eqb a b && startswith p' s'
  end.

(** The text that follows the first closing brace of [s], when [s]
    holds one: [s.split(brace, 1)[1]] under the test [brace in s]. *)
Fixpoint after_brace (s : string) : option string :=
  match s with
  | EmptyString => None
  | String c r => if Ascii.eqb c "}"%char then Some r else after_brace r
  end.

End PyStr.

(* ===================================================================== *)
(* 2. The element tree of xml.etree.ElementTree                          *)
(* ===================================================================== *)

Module ET.

(** An element as poll.py reads it: its tag, its text (None in Python
    when the element has none) and its children in document order. *)
Inductive Element : Type :=
| Elem (tag : string) (text : option string) (children : list Element).

Definition tag (e : Element) : string :=
  match e with Elem t _ _ => t end.

Definition text (e : Element) : option string :=
  match e with Elem _ x _ => x end.

Definition children (e : Element) : list Element :=
  match e with Elem _ _ cs => cs end.

(** [elem.iter()]: the element, then its descendants, in document
    order. *)
Fixpoint iter (e : Element) : list Element :=
  match e with
  | Elem _ _ cs => e :: flat_map iter cs
  end.

(** The loop of main over [root.iter()] that rewrites each qualified
    tag to its local name. *)
Definition local_name (t : string) : string :=
  match PyStr.after_brace t with
  | Some r => r
  | None => t
  end.

Fixpoint strip_namespaces (e : Element) : Element :=
  match e with
  | Elem t x cs => Elem (local_name t) x (List.map strip_namespaces cs)
  end.

(** [elem.findall(name)] for a bare tag name: the children so named. *)
Definition findall (name : string) (e : Element) : list Element :=
  List.filter (fun c => String.eqb (tag c) name) (children e).

(** [elem.find(name)]: the first of them. *)
Definition find (name : string) (e : Element) : option Element :=
  head (findall name e).

(** [elem.findall(".//name")]: every proper descendant so named, in
    document order. *)
Definition findall_descendants (name : string) (e : Element) : list Element :=
  List.filter (fun c => String.eqb (tag c) name) (flat_map iter (children e)).

(** [elem.find(".//outer/inner")]: the first child named [inner] of a
    proper descendant named [outer]. *)
Definition find_path (outer inner : string) (e : Element) : option Element :=
  head (flat_map (findall inner) (findall_descendants outer e)).

(** [d.text or ""] over a list of nodes. *)
Definition text_or_empty (d : Element) : string :=
  match text d with
  | Some s => s
  | None => EmptyString
  end.

Definition texts (ds : list Element) : list string :=
  List.map text_or_empty ds.

End ET.

(* ===================================================================== *)
(* 3. The snapshot transformer: the row loop of main                     *)
(* ===================================================================== *)

Module Transformer.

(** A Python dict with string keys and string values. *)
Abbreviation dict := (gmap string string).

(** [dict(pairs)]: the pairs are inserted from left to right, so a later
    pair replaces an earlier one with the same key. *)
Definition dict_of_pairs (pairs : list (string * string)) : dict :=
  fold_left (fun m kv => <[kv.1 := kv.2]> m) pairs ∅.

(** [dict(zip(columns, values))]; [zip] stops at the shorter list. *)
Definition dict_zip (columns values : list string) : dict :=
  dict_of_pairs (zip columns values).

(** [agent.get(key, "")]. *)
Definition get_or_empty (agent : dict) (key : string) : string :=
  default EmptyString (agent !! key).

(** [agent.get("State") == "Logged Out"]. *)
Definition logged_out (agent : dict) : bool :=
  bool_decide (agent !! "State" = Some "Logged Out").

(** The dict literal appended to [rows], as its items in source order. *)
Definition record_items (snapshot_ts : string) (agent : dict)
  : list (string * string) :=
  [ ("snapshot_ts", snapshot_ts);
    ("username", get_or_empty agent "Username");
    ("full_name", get_or_empty agent "Full Name");
    ("state", get_or_empty agent "State");
    ("reason_code", get_or_empty agent "Reason Code");
    ("state_since", get_or_empty agent "State Since");
    ("state_duration", get_or_empty agent "State Duration");
    ("campaign_name", get_or_empty agent "Campaign Name");
    ("call_type", get_or_empty agent "Call Type");
    ("media_availability", get_or_empty agent "Media Availability") ].

Definition make_record (snapshot_ts : string) (agent : dict) : dict :=
  dict_of_pairs (record_items snapshot_ts agent).

(** The ten keys of a record. *)
Definition record_keys : list string :=
  [ "snapshot_ts"; "username"; "full_name"; "state"; "reason_code";
    "state_since"; "state_duration"; "campaign_name"; "call_type";
    "media_availability" ].

(** The part of the loop body below the lookup of the values node: the
    record for a list of positional values, or None when the body
    reaches [continue] on a logged-out agent. *)
Definition record_of_values (snapshot_ts : string) (columns values : list string)
  : option dict :=
  let agent := dict_zip columns values in
  if logged_out agent then None
  else Some (make_record snapshot_ts agent).

(** One pass of the loop body: None is [continue], Some is the record
    handed to [rows.append]. *)
Definition row_record (snapshot_ts : string) (columns : list string)
  (row_node : ET.Element) : option dict :=
  match ET.find "values" row_node with
  | None => None
  | Some values_node =>
      record_of_values snapshot_ts columns
        (ET.texts (ET.findall "data" values_node))
  end.

(** [for row_node in root.findall(".//rows")], with [rows] threaded
    through as the list that the body appends to. *)
Fixpoint row_loop (snapshot_ts : string) (columns : list string)
  (row_nodes : list ET.Element) (rows : list dict) : list dict :=
  match row_nodes with
  | [] => rows
  | row_node :: rest =>
      match row_record snapshot_ts columns row_node with
      | None => row_loop snapshot_ts columns rest rows
      | Some record => row_loop snapshot_ts columns rest (rows ++ [record])
      end
  end.

End Transformer.

(* ===================================================================== *)
(* 4. What a run can do: print, post, exit, or die on an exception       *)
(* ===================================================================== *)

Module Runtime.

Import Transformer.

(** The two attributes of a requests response that poll.py reads. *)
Record Response : Type := mkResponse {
  status_code : Z;
  text : string
}.

(** The body of a request: [data=] carries a string, [json=] the rows. *)
Inductive Payload : Type :=
| Data (body : string)
| Json (rows : list dict).

(** The arguments of one [requests.post] call. *)
Record Request : Type := mkRequest {
  url : string;
  auth : option (string * string);
  headers : list (string * string);
  payload : Payload;
  timeout : Z
}.

(** What the outside can observe of a run, in the order it happens. *)
Inductive Event : Type :=
| Posted (request : Request)
| Printed (line : string).

(** The exceptions of the libraries that main does not catch. *)
Inductive Fault : Type :=
| TransportFault
| ParseError.

(** How a piece of the program ends: it hands back a value, it calls
    [sys.exit], or an exception leaves it. *)
Inductive Outcome (A : Type) : Type :=
| Returned (a : A)
| SystemExit (code : Z)
| Raised (fault : Fault).

Arguments Returned {A} a.
Arguments SystemExit {A} code.
Arguments Raised {A} fault.

(** A computation: the events it caused and how it ended. *)
Definition Run (A : Type) : Type := (list Event * Outcome A)%type.

Definition ret {A} (a : A) : Run A := ([], Returned a).

Definition bind {A B} (c : Run A) (k : A -> Run B) : Run B :=
  match c with
  | (evs, Returned a) => let (evs', o) := k a in ((evs ++ evs')%list, o)
  | (evs, SystemExit code) => (evs, SystemExit code)
  | (evs, Raised fault) => (evs, Raised fault)
  end.

Notation "'let!' x ':=' c 'in' k" := (bind c (fun x => k))
  (at level 10, x name, c at level 100, k at level 200, only parsing).
Notation "c '>>' k" := (bind c (fun _ => k))
  (at level 90, right associativity, only parsing).

(** [print(line)]. *)
Definition print (line : string) : Run unit := ([Printed line], Returned tt).

(** [sys.exit(code)]. *)
Definition sys_exit {A} (code : Z) : Run A := ([], SystemExit code).

(** An exception that nothing catches. *)
Definition raise {A} (fault : Fault) : Run A := ([], Raised fault).

(** The process environment read at import time. *)
Record Config : Type := mkConfig {
  FIVE9_USER : string;
  FIVE9_PASS : string;
  SUPABASE_URL : string;
  SUPABASE_KEY : string
}.

(** Everything outside the program that a run depends on.
    [reply] answers a request, None standing for a transport exception
    of requests (timeout, DNS, connection reset); [fromstring] is the
    XML parser, None standing for its ParseError; [utc_now] is the text
    of [datetime.now(timezone.utc).isoformat()]; [elapsed] is the
    printed form of the float [round(time.time() - start, 2)]. *)
Record World : Type := mkWorld {
  environ : Config;
  reply : Request -> option Response;
  fromstring : string -> option ET.Element;
  utc_now : string;
  elapsed : string
}.

(** [requests.post(...)]: the call is made, then either a response
    comes back or the call raises; [Posted] records the call, whether or
    not anything reached the other side. *)
Definition requests_post (w : World) (request : Request) : Run Response :=
  match reply w request with
  | Some resp => ([Posted request], Returned resp)
  | None => ([Posted request], Raised TransportFault)
  end.

(** [ET.fromstring(text)]. *)
Definition ET_fromstring (w : World) (xml : string) : Run ET.Element :=
  match fromstring w xml with
  | Some root => ret root
  | None => raise ParseError
  end.

(** The status with which the interpreter leaves: 0 when main returns,
    the argument of [sys.exit], 1 after an uncaught exception. *)
Definition exit_status {A} (o : Outcome A) : Z :=
  match o with
  | Returned _ => 0
  | SystemExit code => code
  | Raised _ => 1
  end.

End Runtime.

(* ===================================================================== *)
(* 5. poll.py                                                            *)
(* ===================================================================== *)

Module Poll.

Import PyStr Transformer Runtime.

Definition FIVE9_SOAP_URL : string :=
  "https://api.five9.com/wssupervisor/v14/SupervisorWebService".

Definition FIVE9_NS : string := "http://service.supervisor.ws.five9.com/".

(** The f-string of [five9_soap_call]. *)
Definition soap_envelope (method body_xml : string) : string :=
  "<?xml version=" ++ dq ++ "1.0" ++ dq ++ " encoding=" ++ dq ++ "UTF-8" ++ dq
    ++ "?>" ++ nl
  ++ "<soapenv:Envelope xmlns:soapenv=" ++ dq
    ++ "http://schemas.xmlsoap.org/soap/envelope/" ++ dq ++ nl
  ++ "                  xmlns:ser=" ++ dq ++ FIVE9_NS ++ dq ++ ">" ++ nl
  ++ "  <soapenv:Header/>" ++ nl
  ++ "  <soapenv:Body>" ++ nl
  ++ "    <ser:" ++ method ++ ">" ++ body_xml ++ "</ser:" ++ method ++ ">" ++ nl
  ++ "  </soapenv:Body>" ++ nl
  ++ "</soapenv:Envelope>".

(** The request that [five9_soap_call(method, body_xml)] posts. *)
Definition soap_request (cfg : Config) (method body_xml : string) : Request :=
  {| url := FIVE9_SOAP_URL;
     auth := Some (FIVE9_USER cfg, FIVE9_PASS cfg);
     headers := [ ("Content-Type", "text/xml; charset=UTF-8");
                  ("SOAPAction", EmptyString) ];
     payload := Data (soap_envelope method body_xml);
     timeout := 30 |}.

Definition five9_soap_call (w : World) (method body_xml : string)
  : Run Response :=
  requests_post w (soap_request (environ w) method body_xml).

(** The body of the setSessionParameters call. *)
Definition view_settings : string :=
  "<viewSettings>" ++ nl
  ++ "        <rollingPeriod>Today</rollingPeriod>" ++ nl
  ++ "        <statisticsRange>CurrentDay</statisticsRange>" ++ nl
  ++ "      </viewSettings>".

(** The body of the getStatistics call. *)
Definition agent_state_type : string :=
  "<statisticType>AgentState</statisticType>".

Definition session_request (cfg : Config) : Request :=
  soap_request cfg "setSessionParameters" view_settings.

Definition statistics_request (cfg : Config) : Request :=
  soap_request cfg "getStatistics" agent_state_type.

(** The request of the write to Supabase. *)
Definition store_url (cfg : Config) : string :=
  SUPABASE_URL cfg ++ "/rest/v1/five9_agent_snapshots".

Definition store_request (cfg : Config) (rows : list dict) : Request :=
  {| url := store_url cfg;
     auth := None;
     headers := [ ("apikey", SUPABASE_KEY cfg);
                  ("Authorization", "Bearer " ++ SUPABASE_KEY cfg);
                  ("Content-Type", "application/json");
                  ("Prefer", "return=minimal") ];
     payload := Json rows;
     timeout := 30 |}.

(** [resp.status_code not in (200, 201)]. *)
Definition store_rejects (resp : Response) : bool :=
  negb ((status_code resp =? 200)%Z || (status_code resp =? 201)%Z).

(** The tail of main from "Write to Supabase" on. *)
Definition write_rows (w : World) (rows : list dict) : Run unit :=
  let! resp := requests_post w (store_request (environ w) rows) in
  let! _ :=
    (if store_rejects resp
     then print ("FAIL: Supabase returned " ++ str_int (status_code resp)
                   ++ ": " ++ slice_to 300 (text resp))
          >> sys_exit 1
     else ret tt) in
  print ("OK: " ++ str_len rows ++ " agents written | " ++ elapsed w ++ "s").

(** main from [if not rows] on. *)
Definition report_rows (w : World) (rows : list dict) : Run unit :=
  let! _ :=
    (match rows with
     | [] => print "OK: 0 active agents (all logged out)" >> sys_exit 0
     | _ :: _ => ret tt
     end) in
  write_rows w rows.

(** main from the row loop on, given the column names and the row nodes
    that [root.findall(".//rows")] found. *)
Definition transform_and_write (w : World) (snapshot_ts : string)
  (columns : list string) (row_nodes : list ET.Element) : Run unit :=
  report_rows w (row_loop snapshot_ts columns row_nodes []).

(** main from "Parse XML" on. *)
Definition parse_and_write (w : World) (snapshot_ts : string)
  (resp : Response) : Run unit :=
  let! parsed := ET_fromstring w (text resp) in
  let root := ET.strip_namespaces parsed in
  match ET.find_path "columns" "values" root with
  | None => print "FAIL: No columns in response" >> sys_exit 1
  | Some columns_node =>
      let columns := ET.texts (ET.findall "data" columns_node) in
      transform_and_write w snapshot_ts columns
        (ET.findall_descendants "rows" root)
  end.

Definition main (w : World) : Run unit :=
  let snapshot_ts := utc_now w in
  let! resp := five9_soap_call w "setSessionParameters" view_settings in
  let! _ :=
    (if negb (status_code resp =? 200)%Z
     then print ("FAIL: Session setup returned " ++ str_int (status_code resp))
          >> sys_exit 1
     else ret tt) in
  let! resp := five9_soap_call w "getStatistics" agent_state_type in
  let! _ :=
    (if negb (status_code resp =? 200)%Z
     then print ("FAIL: getStatistics returned " ++ str_int (status_code resp))
          >> sys_exit 1
     else ret tt) in
  parse_and_write w snapshot_ts resp.

(** What the scheduler sees of a run. *)
Definition printed (r : Run unit) : list string :=
  omap (fun ev => match ev with Printed l => Some l | Posted _ => None end)
       (fst r).

Definition posted (r : Run unit) : list Request :=
  omap (fun ev => match ev with Posted q => Some q | Printed _ => None end)
       (fst r).

Definition status (r : Run unit) : Z := exit_status (snd r).

End Poll.

(* ===================================================================== *)
(* 6. Vocabulary of the statements                                       *)
(* ===================================================================== *)

Module Observe.

Import PyStr Transformer Runtime Poll.

(** The State field of a row as the loop body sees it: the entry of the
    row's [agent] dict under "State"; None when the row has no values
    node or no value is paired with a column of that name. *)
Definition row_state (columns : list string) (row_node : ET.Element)
  : option string :=
  match ET.find "values" row_node with
  | None => None
  | Some values_node =>
      dict_zip columns (ET.texts (ET.findall "data" values_node)) !! "State"
  end.

(** Which column each field of a record is read from, as the dict
    literal of main has it. *)
Definition field_columns : list (string * string) :=
  [ ("username", "Username");
    ("full_name", "Full Name");
    ("state", "State");
    ("reason_code", "Reason Code");
    ("state_since", "State Since");
    ("state_duration", "State Duration");
    ("campaign_name", "Campaign Name");
    ("call_type", "Call Type");
    ("media_availability", "Media Availability") ].

(** The document that main parses: both SOAP calls answered with 200
    and the body of the second one parsed, tags already stripped. *)
Definition statistics_root (w : World) : option ET.Element :=
  match reply w (session_request (environ w)) with
  | Some r1 =>
      if (status_code r1 =? 200)%Z then
        match reply w (statistics_request (environ w)) with
        | Some r2 =>
            if (status_code r2 =? 200)%Z then
              match fromstring w (text r2) with
              | Some parsed => Some (ET.strip_namespaces parsed)
              | None => None
              end
            else None
        | None => None
        end
      else None
  | None => None
  end.

(** The table that main reads off that document: the column names and
    the row nodes. *)
Definition statistics_table (w : World)
  : option (list string * list ET.Element) :=
  match statistics_root w with
  | Some root =>
      match ET.find_path "columns" "values" root with
      | Some columns_node =>
          Some (ET.texts (ET.findall "data" columns_node),
                ET.findall_descendants "rows" root)
      | None => None
      end
  | None => None
  end.

(** The records of a run that gets as far as the row loop. *)
Definition records (w : World) (columns : list string)
  (row_nodes : list ET.Element) : list dict :=
  row_loop (utc_now w) columns row_nodes [].

(** A line that reads as a status line. *)
Definition status_line (line : string) : Prop :=
  startswith "OK: " line = true \/ startswith "FAIL: " line = true.

(** [p] is a prefix of [s]. *)
Definition prefix_of (p s : string) : Prop := exists rest, s = p ++ rest.

(** The ways a run can go, each with the trace it leaves and how it
    ends: one case per exit of main, and one per call that can raise. *)
Inductive Ending (w : World) : Run unit -> Prop :=
| SessionFault :
    reply w (session_request (environ w)) = None ->
    Ending w ([Posted (session_request (environ w))], Raised TransportFault)
| SessionRejected (resp : Response) :
    reply w (session_request (environ w)) = Some resp ->
    status_code resp <> 200%Z ->
    Ending w
      ([Posted (session_request (environ w));
        Printed ("FAIL: Session setup returned "
                   ++ str_int (status_code resp))],
       SystemExit 1)
| StatisticsFault (resp : Response) :
    reply w (session_request (environ w)) = Some resp ->
    status_code resp = 200%Z ->
    reply w (statistics_request (environ w)) = None ->
    Ending w
      ([Posted (session_request (environ w));
        Posted (statistics_request (environ w))],
       Raised TransportFault)
| StatisticsRejected (resp resp' : Response) :
    reply w (session_request (environ w)) = Some resp ->
    status_code resp = 200%Z ->
    reply w (statistics_request (environ w)) = Some resp' ->
    status_code resp' <> 200%Z ->
    Ending w
      ([Posted (session_request (environ w));
        Posted (statistics_request (environ w));
        Printed ("FAIL: getStatistics returned "
                   ++ str_int (status_code resp'))],
       SystemExit 1)
| Unparsed (resp resp' : Response) :
    reply w (session_request (environ w)) = Some resp ->
    status_code resp = 200%Z ->
    reply w (statistics_request (environ w)) = Some resp' ->
    status_code resp' = 200%Z ->
    fromstring w (text resp') = None ->
    Ending w
      ([Posted (session_request (environ w));
        Posted (statistics_request (environ w))],
       Raised ParseError)
| NoColumns (root : ET.Element) :
    statistics_root w = Some root ->
    ET.find_path "columns" "values" root = None ->
    Ending w
      ([Posted (session_request (environ w));
        Posted (statistics_request (environ w));
        Printed "FAIL: No columns in response"],
       SystemExit 1)
| NobodyActive (columns : list string) (row_nodes : list ET.Element) :
    statistics_table w = Some (columns, row_nodes) ->
    records w columns row_nodes = [] ->
    Ending w
      ([Posted (session_request (environ w));
        Posted (statistics_request (environ w));
        Printed "OK: 0 active agents (all logged out)"],
       SystemExit 0)
| StoreFault (columns : list string) (row_nodes : list ET.Element) :
    statistics_table w = Some (columns, row_nodes) ->
    records w columns row_nodes <> [] ->
    reply w (store_request (environ w) (records w columns row_nodes)) = None ->
    Ending w
      ([Posted (session_request (environ w));
        Posted (statistics_request (environ w));
        Posted (store_request (environ w) (records w columns row_nodes))],
       Raised TransportFault)
| StoreRejected (columns : list string) (row_nodes : list ET.Element)
    (resp : Response) :
    statistics_table w = Some (columns, row_nodes) ->
    records w columns row_nodes <> [] ->
    reply w (store_request (environ w) (records w columns row_nodes))
    = Some resp ->
    store_rejects resp = true ->
    Ending w
      ([Posted (session_request (environ w));
        Posted (statistics_request (environ w));
        Posted (store_request (environ w) (records w columns row_nodes));
        Printed ("FAIL: Supabase returned " ++ str_int (status_code resp)
                   ++ ": " ++ slice_to 300 (text resp))],
       SystemExit 1)
| Written (columns : list string) (row_nodes : list ET.Element)
    (resp : Response) :
    statistics_table w = Some (columns, row_nodes) ->
    records w columns row_nodes <> [] ->
    reply w (store_request (environ w) (records w columns row_nodes))
    = Some resp ->
    store_rejects resp = false ->
    Ending w
      ([Posted (session_request (environ w));
        Posted (statistics_request (environ w));
        Posted (store_request (environ w) (records w columns row_nodes));
        Printed ("OK: " ++ str_len (records w columns row_nodes)
                   ++ " agents written | " ++ elapsed w ++ "s")],
       Returned tt).

End Observe.

(* ===================================================================== *)
(* 7. Sample responses                                                   *)
(* ===================================================================== *)

Module Samples.

Import Runtime Poll.

Definition data (s : string) : ET.Element := ET.Elem "data" (Some s) [].

Definition values (l : list string) : ET.Element :=
  ET.Elem "{http://service.supervisor.ws.five9.com/}values" None
    (List.map data l).

Definition row (l : list string) : ET.Element :=
  ET.Elem "{http://service.supervisor.ws.five9.com/}rows" None [values l].

Definition envelope (result : list ET.Element) : ET.Element :=
  ET.Elem "{http://schemas.xmlsoap.org/soap/envelope/}Envelope" None
    [ ET.Elem "{http://schemas.xmlsoap.org/soap/envelope/}Body" None
        [ ET.Elem "{http://service.supervisor.ws.five9.com/}getStatisticsResponse"
            None [ ET.Elem "return" None result ] ] ].

Definition header : ET.Element :=
  ET.Elem "{http://service.supervisor.ws.five9.com/}columns" None
    [ values ["Username"; "Full Name"; "State"] ].

(** Two agents on duty, one logged out, one row without values, one row
    that stops before its State. *)
Definition busy_floor : ET.Element :=
  envelope [ header;
             row ["bob"; "Bob B"; "Ready"];
             row ["al"; "Al A"; "Logged Out"];
             ET.Elem "rows" None [];
             row ["cy"; "Cy C"] ].

(** Everybody has gone home. *)
Definition empty_floor : ET.Element :=
  envelope [ header; row ["al"; "Al A"; "Logged Out"] ].

(** A response without a column list. *)
Definition no_header : ET.Element :=
  envelope [ row ["bob"; "Bob B"; "Ready"] ].

(** The column names of [header], and a row under them that stops
    before its State, as the loop meets it after the tags are stripped. *)
Definition three_columns : list string := ["Username"; "Full Name"; "State"].

Definition short_row : ET.Element :=
  ET.strip_namespaces (row ["cy"; "Cy C"]).

Definition cfg : Config :=
  {| FIVE9_USER := "supervisor"; FIVE9_PASS := "secret";
     SUPABASE_URL := "https://example.supabase.co"; SUPABASE_KEY := "key" |}.

(** A world in which Five9 answers both calls with [five9] and the
    store answers with [store]. *)
Definition world (five9 : option Response) (root : option ET.Element)
  (store : option Response) : World :=
  {| environ := cfg;
     reply := fun q =>
       if String.eqb (url q) FIVE9_SOAP_URL then five9 else store;
     fromstring := fun _ => root;
     utc_now := "2026-01-01T00:00:00+00:00";
     elapsed := "0.42" |}.

Definition ok : option Response := Some (mkResponse 200 "<xml/>").
Definition created : option Response := Some (mkResponse 201 EmptyString).
Definition conflict : option Response := Some (mkResponse 409 "duplicate key").
Definition unavailable : option Response := Some (mkResponse 500 "oops").

(** Five9 answers the session call with 200 and the statistics call
    with 500. *)
Definition statistics_down : World :=
  {| environ := cfg;
     reply := fun q =>
       match payload q with
       | Data body =>
           if String.eqb body
                (soap_envelope "setSessionParameters" view_settings)
           then ok else unavailable
       | Json _ => None
       end;
     fromstring := fun _ => None;
     utc_now := "2026-01-01T00:00:00+00:00";
     elapsed := "0.42" |}.

Definition session_refused : World := world unavailable None None.
Definition headless : World := world ok (Some no_header) None.
Definition quiet_night : World := world ok (Some empty_floor) None.
Definition day_shift : World := world ok (Some busy_floor) created.
Definition store_conflict : World := world ok (Some busy_floor) conflict.

End Samples.

(* ===================================================================== *)
(* 7b. More sample documents and rows                                    *)
(* ===================================================================== *)

Module MoreSamples.

Import Runtime Poll Samples.

(** The namespace of the Five9 service, as a tag qualifier without its
    closing brace. *)
Definition five9_qualifier : string :=
  "{http://service.supervisor.ws.five9.com/".

(** A response whose first columns node is empty; the column list sits
    under the second one. *)
Definition late_header : ET.Element :=
  envelope [ ET.Elem "columns" None []; header;
             row ["bob"; "Bob B"; "Ready"] ].

(** A header that names State twice. *)
Definition twice_state : list string := ["State"; "Username"; "State"].

(** The three columns followed by one that main does not read. *)
Definition four_columns : list string :=
  ["Username"; "Full Name"; "State"; "Skill"].

(** Five9 answers both calls with 200, but the body is not XML. *)
Definition garbled : World := world ok None None.

(** Five9 answers the busy floor, but the store cannot be reached. *)
Definition store_down : World := world ok (Some busy_floor) None.

End MoreSamples.

(* ===================================================================== *)
(* 7c. Lines on standard output                                          *)
(* ===================================================================== *)

Module Stdout.

Import PyStr Runtime Poll Samples.

(** The number of line breaks inside a text. *)
Fixpoint line_breaks (s : string) : nat :=
  match s with
  | EmptyString => 0
  | String c r =>
      (if Ascii.eqb c "010"%char then 1 else 0) + line_breaks r
  end.

(** The number of lines that a sequence of print calls leaves on
    standard output: each call writes its text and ends the line. *)
Fixpoint stdout_lines (texts : list string) : nat :=
  match texts with
  | [] => 0
  | text :: rest => S (line_breaks text) + stdout_lines rest
  end.

(** The store refuses the busy floor with a body of two lines. *)
Definition two_line_conflict : World :=
  world ok (Some busy_floor)
    (Some (mkResponse 409 ("line one" ++ nl ++ "line two"))).

End Stdout.

(* ===================================================================== *)
(* 8. Facts about dicts and records                                      *)
(* ===================================================================== *)

Module TransformerFacts.
Import PyStr Transformer Observe.

Section Dicts.

Implicit Types (pairs : list (string * string)) (m : dict) (k v : string).

Lemma fold_insert_other pairs m k :
  k ∉ pairs.*1 ->
  fold_left (fun m kv => <[kv.1 := kv.2]> m) pairs m !! k = m !! k.
Proof.
  revert m. induction pairs as [|[k' v'] pairs IH]; intros m Hk; simpl in *.
  - reflexivity.
  - apply not_elem_of_cons in Hk as [Hne Hk].
    rewrite IH by assumption. apply lookup_insert_ne. congruence.
Qed.

Lemma dict_of_pairs_snoc pairs k v :
  dict_of_pairs (pairs ++ [(k, v)]) = <[k := v]> (dict_of_pairs pairs).
Proof. unfold dict_of_pairs. rewrite fold_left_app. reflexivity. Qed.

Lemma zip_keys (columns values : list string) k :
  k ∈ (zip columns values).*1 -> k ∈ columns.
Proof.
  intros Hk. apply list_elem_of_fmap in Hk as [[k' v'] [-> Hin]].
  simpl. eapply elem_of_zip_l. exact Hin.
Qed.

Lemma fold_zip_lookup (columns values : list string) m i k :
  NoDup columns -> columns !! i = Some k ->
  fold_left (fun m kv => <[kv.1 := kv.2]> m) (zip columns values) m !! k
  = match values !! i with Some v => Some v | None => m !! k end.
Proof.
  revert values m i.
  induction columns as [|c columns IH]; intros values m i Hnd Hi.
  - discriminate.
  - apply NoDup_cons in Hnd as [Hc Hnd].
    destruct values as [|v values]; simpl.
    + reflexivity.
    + destruct i as [|i]; simpl in *.
      * injection Hi as ->.
        rewrite fold_insert_other.
        -- apply lookup_insert_eq.
        -- intros Hin. apply Hc. eapply zip_keys. exact Hin.
      * rewrite (IH values _ i Hnd Hi).
        destruct (values !! i); [reflexivity|].
        apply lookup_insert_ne. intros ->.
        apply Hc. eapply list_elem_of_lookup_2. exact Hi.
Qed.

Lemma dict_zip_lookup (columns values : list string) i k :
  NoDup columns -> columns !! i = Some k ->
  dict_zip columns values !! k = values !! i.
Proof.
  intros Hnd Hi. unfold dict_zip, dict_of_pairs.
  rewrite (fold_zip_lookup _ _ _ i) by assumption.
  destruct (values !! i); [reflexivity | apply lookup_empty].
Qed.

Lemma dict_zip_unnamed (columns values : list string) k :
  k ∉ columns -> dict_zip columns values !! k = None.
Proof.
  intros Hk. unfold dict_zip, dict_of_pairs.
  rewrite fold_insert_other; [apply lookup_empty|].
  intros Hin. apply Hk. eapply zip_keys. exact Hin.
Qed.

Lemma zip_take_columns (columns values : list string) :
  zip columns (take (length columns) values) = zip columns values.
Proof.
  revert values. induction columns as [|c columns IH]; intros [|v values]; simpl;
    try reflexivity.
  f_equal. apply IH.
Qed.

End Dicts.

Section Records.

Variables (snapshot_ts : string) (agent : dict).

Lemma record_items_by_column :
  record_items snapshot_ts agent
  = ("snapshot_ts", snapshot_ts)
      :: List.map (fun fc => (fc.1, get_or_empty agent fc.2)) field_columns.
Proof. reflexivity. Qed.

Lemma make_record_snapshot_ts :
  make_record snapshot_ts agent !! "snapshot_ts" = Some snapshot_ts.
Proof. unfold make_record, dict_of_pairs. simpl. by simplify_map_eq. Qed.

Lemma make_record_field field column :
  (field, column) ∈ field_columns ->
  make_record snapshot_ts agent !! field = Some (get_or_empty agent column).
Proof.
  unfold field_columns. intros Hin.
  repeat (apply elem_of_cons in Hin as [Heq | Hin];
          [ injection Heq as -> ->;
            unfold make_record, dict_of_pairs; simpl; by simplify_map_eq | ]).
  by apply elem_of_nil in Hin.
Qed.

Lemma make_record_keys :
  dom (make_record snapshot_ts agent) = list_to_set record_keys.
Proof.
  unfold make_record, dict_of_pairs, record_keys. simpl.
  rewrite !dom_insert_L, dom_empty_L. set_solver.
Qed.

End Records.
End TransformerFacts.

(* ===================================================================== *)
(* 9. Facts about the row loop                                           *)
(* ===================================================================== *)

Module LoopFacts.

Import PyStr Transformer Observe TransformerFacts.
Local Open Scope list_scope.

Section Loop.

Variables (snapshot_ts : string) (columns : list string).

(** The loop appends, in order, the record of every row that has one. *)
Lemma row_loop_omap (row_nodes : list ET.Element) (rows : list dict) :
  row_loop snapshot_ts columns row_nodes rows
  = rows ++ omap (row_record snapshot_ts columns) row_nodes.
Proof.
  revert rows. induction row_nodes as [|row_node rest IH]; intros rows; simpl.
  - by rewrite app_nil_r.
  - destruct (row_record snapshot_ts columns row_node) as [record|].
    + rewrite IH. by rewrite <- app_assoc.
    + apply IH.
Qed.

Lemma row_loop_app (pre post : list ET.Element) :
  row_loop snapshot_ts columns (pre ++ post) []
  = row_loop snapshot_ts columns pre []
      ++ row_loop snapshot_ts columns post [].
Proof. rewrite !row_loop_omap. simpl. apply omap_app. Qed.

Lemma elem_of_row_loop (row_nodes : list ET.Element) (record : dict) :
  record ∈ row_loop snapshot_ts columns row_nodes [] <->
  exists row_node,
    row_node ∈ row_nodes /\ row_record snapshot_ts columns row_node = Some record.
Proof. rewrite row_loop_omap. simpl. apply list_elem_of_omap. Qed.

(** When the body reaches [rows.append], the agent is not logged out
    and the record is the dict literal over that agent. *)
Lemma row_record_Some (row_node : ET.Element) (record : dict) :
  row_record snapshot_ts columns row_node = Some record ->
  exists values_node,
    ET.find "values" row_node = Some values_node /\
    let agent :=
      dict_zip columns (ET.texts (ET.findall "data" values_node)) in
    agent !! "State" <> Some "Logged Out" /\
    record = make_record snapshot_ts agent.
Proof.
  unfold row_record, record_of_values, logged_out.
  destruct (ET.find "values" row_node) as [values_node|]; [|discriminate].
  case_bool_decide as Hstate; [discriminate|].
  intros [= <-]. exists values_node. auto.
Qed.

Lemma row_record_state (row_node : ET.Element) (record : dict) :
  row_record snapshot_ts columns row_node = Some record ->
  record !! "state" = Some (default EmptyString (row_state columns row_node)).
Proof.
  intros H. apply row_record_Some in H as (values_node & Hfind & _ & ->).
  unfold row_state. rewrite Hfind.
  apply make_record_field. unfold field_columns. set_solver.
Qed.

End Loop.
End LoopFacts.

(* ===================================================================== *)
(* 10. The transformer: which rows become records, and what they hold    *)
(* ===================================================================== *)

Module TransformerSpec.

Import PyStr Transformer Runtime Poll Observe Samples TransformerFacts LoopFacts.
Local Open Scope list_scope.

(** C1, as the claim has it, fails: a row is not emitted only when its
    State is present and differs from "Logged Out".  The row
    [cy, Cy C] under the columns [Username, Full Name, State] has no
    State field, and the loop emits a record for it all the same. *)
Lemma absent_state_is_emitted :
  ~ (is_Some (row_record "2026-01-01T00:00:00+00:00" three_columns short_row)
     <-> exists state, row_state three_columns short_row = Some state
                       /\ state <> "Logged Out").
Proof.
  intros [Hemitted _].
  destruct Hemitted as (state & Hstate & _).
  - apply (bool_decide_unpack (is_Some _)). vm_compute. exact I.
  - vm_compute in Hstate. discriminate.
Qed.

(** C1 (amended): a record is emitted for a row if and only if the row
    has a values node and its State field is not equal to "Logged Out";
    the output list holds exactly the records so emitted, none of them
    with the state "Logged Out"; and the state of an emitted record is
    the row's State, the empty string when the row has none. *)
Theorem emitted_iff_not_logged_out
  (snapshot_ts : string) (columns : list string) (row_nodes : list ET.Element) :
  (forall row_node,
     is_Some (row_record snapshot_ts columns row_node) <->
     is_Some (ET.find "values" row_node)
     /\ row_state columns row_node <> Some "Logged Out")
  /\ (forall record,
        record ∈ row_loop snapshot_ts columns row_nodes [] <->
        exists row_node,
          row_node ∈ row_nodes
          /\ row_record snapshot_ts columns row_node = Some record)
  /\ (forall record,
        record ∈ row_loop snapshot_ts columns row_nodes [] ->
        record !! "state" <> Some "Logged Out")
  /\ (forall row_node record,
        row_record snapshot_ts columns row_node = Some record ->
        record !! "state"
        = Some (default EmptyString (row_state columns row_node))).
Proof.
  split; [|split; [|split]].
  - intros row_node. unfold row_record, row_state, record_of_values, logged_out.
    destruct (ET.find "values" row_node) as [values_node|].
    + case_bool_decide as Hstate.
      * split; [intros [? [=]] | intros [_ Hne]; contradiction].
      * split; [intros _; split; [by eexists | assumption] | by eexists].
    + split; [intros [? [=]] | intros [[? [=]] _]].
  - intros record. apply elem_of_row_loop.
  - intros record Hin.
    apply elem_of_row_loop in Hin as (row_node & _ & Hrec).
    pose proof (row_record_state _ _ _ _ Hrec) as Hst.
    apply row_record_Some in Hrec as (values_node & Hfind & Hne & _).
    unfold row_state in Hst. rewrite Hfind in Hst. rewrite Hst.
    destruct (dict_zip columns _ !! "State") as [state|] eqn:Hstate; simpl.
    + congruence.
    + discriminate.
  - intros row_node record. apply row_record_state.
Qed.

(** With distinct column names, the value of a row at position [i]
    is paired with the column at position [i], and a column past the
    end of the values reads as the empty string; the record of the row
    has exactly the ten keys, each field holding the value paired with
    its column, or the empty string when there is none. *)
Theorem header_row_pairing
  (snapshot_ts : string) (columns values : list string) (record : dict) :
  NoDup columns ->
  record_of_values snapshot_ts columns values = Some record ->
  (forall i column,
     columns !! i = Some column ->
     get_or_empty (dict_zip columns values) column
     = default EmptyString (values !! i))
  /\ dom record = list_to_set record_keys
  /\ (forall field column i,
        (field, column) ∈ field_columns ->
        columns !! i = Some column ->
        record !! field = Some (default EmptyString (values !! i)))
  /\ (forall field column,
        (field, column) ∈ field_columns ->
        column ∉ columns ->
        record !! field = Some EmptyString).
Proof.
  intros Hnd Hrec. unfold record_of_values in Hrec.
  destruct (logged_out _); [discriminate|]. injection Hrec as <-.
  split; [|split; [|split]].
  - intros i column Hi. unfold get_or_empty.
    by rewrite (dict_zip_lookup _ _ i).
  - apply make_record_keys.
  - intros field column i Hfc Hi.
    rewrite (make_record_field _ _ _ _ Hfc). unfold get_or_empty.
    by rewrite (dict_zip_lookup _ _ i).
  - intros field column Hfc Hnot.
    rewrite (make_record_field _ _ _ _ Hfc). unfold get_or_empty.
    by rewrite dict_zip_unnamed.
Qed.

(** The pairing on [cy, Cy C] under the three columns: Username and
    Full Name take the two values, State is left empty. *)
Lemma header_row_pairing_witness :
  NoDup three_columns
  /\ record_of_values "T" three_columns ["cy"; "Cy C"]
     = Some (make_record "T" (dict_zip three_columns ["cy"; "Cy C"]))
  /\ make_record "T" (dict_zip three_columns ["cy"; "Cy C"]) !! "username"
     = Some "cy"
  /\ make_record "T" (dict_zip three_columns ["cy"; "Cy C"]) !! "full_name"
     = Some "Cy C"
  /\ make_record "T" (dict_zip three_columns ["cy"; "Cy C"]) !! "state"
     = Some EmptyString.
Proof.
  assert (Hnd : NoDup three_columns)
    by (apply (bool_decide_unpack (NoDup three_columns)); vm_compute; exact I).
  assert (Hrec : record_of_values "T" three_columns ["cy"; "Cy C"]
                 = Some (make_record "T" (dict_zip three_columns ["cy"; "Cy C"])))
    by reflexivity.
  destruct (header_row_pairing "T" three_columns ["cy"; "Cy C"] _ Hnd Hrec)
    as (_ & _ & Hfield & _).
  split; [exact Hnd|]. split; [exact Hrec|]. split; [|split].
  - apply (Hfield "username" "Username" 0%nat); [vm_compute; set_solver | reflexivity].
  - apply (Hfield "full_name" "Full Name" 1%nat); [vm_compute; set_solver | reflexivity].
  - apply (Hfield "state" "State" 2%nat); [vm_compute; set_solver | reflexivity].
Defined.

(** C10: when a row has more values than there are columns, the
    pairing stops at the last column, one pair per column: the dict of
    the row, and with it the record, is that of the row cut to the
    length of the header. *)
Theorem extra_values_discarded
  (snapshot_ts : string) (columns values : list string) :
  (length columns < length values)%nat ->
  length (zip columns values) = length columns
  /\ zip columns values = zip columns (take (length columns) values)
  /\ dict_zip columns values = dict_zip columns (take (length columns) values)
  /\ record_of_values snapshot_ts columns values
     = record_of_values snapshot_ts columns (take (length columns) values).
Proof.
  intros Hlen.
  assert (Hstop : length (zip columns values) = length columns)
    by (rewrite length_zip_with; lia).
  assert (Hzip : zip columns values
                 = zip columns (take (length columns) values))
    by (by rewrite zip_take_columns).
  assert (Hdict : dict_zip columns values
                  = dict_zip columns (take (length columns) values))
    by (unfold dict_zip; by rewrite <- Hzip).
  split; [exact Hstop|]. split; [exact Hzip|]. split; [exact Hdict|].
  unfold record_of_values. by rewrite <- Hdict.
Qed.

(** Five values under three columns: the last two are dropped. *)
Lemma extra_values_discarded_witness :
  (length three_columns
   < length ["bob"; "Bob B"; "Ready"; "extra"; "more"])%nat
  /\ take (length three_columns) ["bob"; "Bob B"; "Ready"; "extra"; "more"]
     = ["bob"; "Bob B"; "Ready"]
  /\ record_of_values "T" three_columns
       ["bob"; "Bob B"; "Ready"; "extra"; "more"]
     = record_of_values "T" three_columns ["bob"; "Bob B"; "Ready"].
Proof.
  assert (Hlen : (length three_columns
                  < length ["bob"; "Bob B"; "Ready"; "extra"; "more"])%nat)
    by (simpl; lia).
  split; [exact Hlen|]. split; [reflexivity|].
  exact (proj2 (proj2 (proj2
    (extra_values_discarded "T" three_columns
       ["bob"; "Bob B"; "Ready"; "extra"; "more"] Hlen)))).
Defined.

End TransformerSpec.

(* ===================================================================== *)
(* 11. Facts about a run                                                 *)
(* ===================================================================== *)

Module RunFacts.

Import PyStr Transformer Runtime Poll Observe.
Local Open Scope list_scope.

Lemma bind_returned {A B} (evs : list Event) (a : A) (k : A -> Run B) :
  bind (evs, Returned a) k = (evs ++ fst (k a), snd (k a)).
Proof. unfold bind. destruct (k a). reflexivity. Qed.

Lemma bind_exit {A B} (evs : list Event) (code : Z) (k : A -> Run B) :
  bind (evs, SystemExit code) k = (evs, SystemExit code).
Proof. reflexivity. Qed.

Lemma bind_raised {A B} (evs : list Event) (fault : Fault) (k : A -> Run B) :
  bind (evs, Raised fault) k = (evs, Raised fault).
Proof. reflexivity. Qed.

Section Store.

Variables (w : World) (rows : list dict).

Let request := store_request (environ w) rows.

Lemma write_rows_fault :
  reply w request = None ->
  write_rows w rows = ([Posted request], Raised TransportFault).
Proof.
  intros Hreply. unfold write_rows, requests_post. fold request.
  rewrite Hreply. apply bind_raised.
Qed.

Lemma write_rows_rejected (resp : Response) :
  reply w request = Some resp -> store_rejects resp = true ->
  write_rows w rows
  = ([Posted request;
      Printed ("FAIL: Supabase returned " ++ str_int (status_code resp)
                 ++ ": " ++ slice_to 300 (text resp))%string],
     SystemExit 1).
Proof.
  intros Hreply Hrej. unfold write_rows, requests_post. fold request.
  rewrite Hreply, bind_returned, Hrej. reflexivity.
Qed.

Lemma write_rows_accepted (resp : Response) :
  reply w request = Some resp -> store_rejects resp = false ->
  write_rows w rows
  = ([Posted request;
      Printed ("OK: " ++ str_len rows ++ " agents written | "
                 ++ elapsed w ++ "s")%string],
     Returned tt).
Proof.
  intros Hreply Hrej. unfold write_rows, requests_post. fold request.
  rewrite Hreply, bind_returned, Hrej. reflexivity.
Qed.

Lemma report_rows_empty :
  report_rows w [] = ([Printed "OK: 0 active agents (all logged out)"],
                      SystemExit 0).
Proof. reflexivity. Qed.

Lemma report_rows_nonempty : rows <> [] -> report_rows w rows = write_rows w rows.
Proof.
  intros Hne. unfold report_rows.
  destruct rows as [|record rest]; [contradiction|].
  unfold ret. rewrite bind_returned. by destruct (write_rows w _).
Qed.

End Store.

Section Fetch.

Variable w : World.

Let session := session_request (environ w).
Let statistics := statistics_request (environ w).

Lemma main_session_fault :
  reply w session = None ->
  main w = ([Posted session], Raised TransportFault).
Proof.
  intros Hreply. unfold main, five9_soap_call, requests_post.
  fold (session_request (environ w)). fold session.
  rewrite Hreply. apply bind_raised.
Qed.

Lemma main_session_rejected (resp : Response) :
  reply w session = Some resp -> status_code resp <> 200%Z ->
  main w
  = ([Posted session;
      Printed ("FAIL: Session setup returned "
                 ++ str_int (status_code resp))%string],
     SystemExit 1).
Proof.
  intros Hreply Hcode. unfold main, five9_soap_call, requests_post.
  fold (session_request (environ w)). fold session.
  rewrite Hreply, bind_returned.
  apply Z.eqb_neq in Hcode. rewrite Hcode. reflexivity.
Qed.

(** Once the session call has been answered with 200, main goes on
    with the statistics call. *)
Lemma main_session_ok (resp : Response) :
  reply w session = Some resp -> status_code resp = 200%Z ->
  main w
  = bind ([Posted session], Returned tt)
      (fun _ =>
         bind (five9_soap_call w "getStatistics" agent_state_type)
           (fun resp' =>
              bind (if negb (status_code resp' =? 200)%Z
                    then bind (print ("FAIL: getStatistics returned "
                                        ++ str_int (status_code resp'))%string)
                              (fun _ => sys_exit 1)
                    else ret tt)
                (fun _ => parse_and_write w (utc_now w) resp'))).
Proof.
  intros Hreply Hcode. unfold main, five9_soap_call at 1, requests_post.
  fold (session_request (environ w)). fold session.
  rewrite Hreply, !bind_returned.
  apply Z.eqb_eq in Hcode. rewrite Hcode. simpl negb. cbv iota.
  unfold ret. rewrite bind_returned. reflexivity.
Qed.

Lemma main_statistics_fault (resp : Response) :
  reply w session = Some resp -> status_code resp = 200%Z ->
  reply w statistics = None ->
  main w = ([Posted session; Posted statistics], Raised TransportFault).
Proof.
  intros Hreply Hcode Hreply'. rewrite (main_session_ok _ Hreply Hcode).
  rewrite bind_returned. unfold five9_soap_call, requests_post.
  fold (statistics_request (environ w)). fold statistics.
  rewrite Hreply'. reflexivity.
Qed.

Lemma main_statistics_rejected (resp resp' : Response) :
  reply w session = Some resp -> status_code resp = 200%Z ->
  reply w statistics = Some resp' -> status_code resp' <> 200%Z ->
  main w
  = ([Posted session; Posted statistics;
      Printed ("FAIL: getStatistics returned "
                 ++ str_int (status_code resp'))%string],
     SystemExit 1).
Proof.
  intros Hreply Hcode Hreply' Hcode'. rewrite (main_session_ok _ Hreply Hcode).
  rewrite bind_returned. unfold five9_soap_call, requests_post.
  fold (statistics_request (environ w)). fold statistics.
  rewrite Hreply', bind_returned.
  apply Z.eqb_neq in Hcode'. rewrite Hcode'. reflexivity.
Qed.

Lemma main_statistics_ok (resp resp' : Response) :
  reply w session = Some resp -> status_code resp = 200%Z ->
  reply w statistics = Some resp' -> status_code resp' = 200%Z ->
  main w
  = ([Posted session; Posted statistics]
       ++ fst (parse_and_write w (utc_now w) resp'),
     snd (parse_and_write w (utc_now w) resp')).
Proof.
  intros Hreply Hcode Hreply' Hcode'. rewrite (main_session_ok _ Hreply Hcode).
  rewrite bind_returned. unfold five9_soap_call, requests_post.
  fold (statistics_request (environ w)). fold statistics.
  rewrite Hreply', bind_returned.
  apply Z.eqb_eq in Hcode'. rewrite Hcode'. simpl negb. cbv iota.
  unfold ret. rewrite bind_returned. reflexivity.
Qed.

Lemma statistics_root_Some (root : ET.Element) :
  statistics_root w = Some root ->
  exists resp resp' parsed,
    reply w session = Some resp /\ status_code resp = 200%Z /\
    reply w statistics = Some resp' /\ status_code resp' = 200%Z /\
    fromstring w (text resp') = Some parsed /\
    root = ET.strip_namespaces parsed.
Proof.
  unfold statistics_root. fold session statistics.
  destruct (reply w session) as [resp|]; [|discriminate].
  destruct (status_code resp =? 200)%Z eqn:Hcode; [|discriminate].
  destruct (reply w statistics) as [resp'|]; [|discriminate].
  destruct (status_code resp' =? 200)%Z eqn:Hcode'; [|discriminate].
  destruct (fromstring w (text resp')) as [parsed|] eqn:Hparse; [|discriminate].
  intros [= <-]. exists resp, resp', parsed.
  apply Z.eqb_eq in Hcode, Hcode'. auto 10.
Qed.

Lemma main_parse_error (resp resp' : Response) :
  reply w session = Some resp -> status_code resp = 200%Z ->
  reply w statistics = Some resp' -> status_code resp' = 200%Z ->
  fromstring w (text resp') = None ->
  main w = ([Posted session; Posted statistics], Raised ParseError).
Proof.
  intros Hreply Hcode Hreply' Hcode' Hparse.
  rewrite (main_statistics_ok _ _ Hreply Hcode Hreply' Hcode').
  unfold parse_and_write, ET_fromstring. rewrite Hparse. reflexivity.
Qed.

Lemma main_no_columns (root : ET.Element) :
  statistics_root w = Some root ->
  ET.find_path "columns" "values" root = None ->
  main w
  = ([Posted session; Posted statistics;
      Printed "FAIL: No columns in response"],
     SystemExit 1).
Proof.
  intros Hroot Hfind.
  apply statistics_root_Some in Hroot
    as (resp & resp' & parsed & Hreply & Hcode & Hreply' & Hcode' & Hparse & ->).
  rewrite (main_statistics_ok _ _ Hreply Hcode Hreply' Hcode').
  unfold parse_and_write, ET_fromstring. rewrite Hparse.
  unfold ret. rewrite bind_returned, Hfind. reflexivity.
Qed.

Lemma main_table (columns : list string) (row_nodes : list ET.Element) :
  statistics_table w = Some (columns, row_nodes) ->
  main w
  = ([Posted session; Posted statistics]
       ++ fst (report_rows w (records w columns row_nodes)),
     snd (report_rows w (records w columns row_nodes))).
Proof.
  unfold statistics_table.
  destruct (statistics_root w) as [root|] eqn:Hroot; [|discriminate].
  destruct (ET.find_path "columns" "values" root) as [columns_node|] eqn:Hfind;
    [|discriminate].
  intros [= <- <-].
  apply statistics_root_Some in Hroot
    as (resp & resp' & parsed & Hreply & Hcode & Hreply' & Hcode' & Hparse & ->).
  rewrite (main_statistics_ok _ _ Hreply Hcode Hreply' Hcode').
  unfold parse_and_write, ET_fromstring. rewrite Hparse.
  unfold ret. rewrite bind_returned, Hfind. reflexivity.
Qed.

End Fetch.
End RunFacts.

(* ===================================================================== *)
(* 12. Every run ends in one of the ten ways                             *)
(* ===================================================================== *)

Module RunCases.

Import PyStr Transformer Runtime Poll Observe RunFacts.
Local Open Scope list_scope.

Lemma statistics_root_intro (w : World) (resp resp' : Response)
  (parsed : ET.Element) :
  reply w (session_request (environ w)) = Some resp ->
  status_code resp = 200%Z ->
  reply w (statistics_request (environ w)) = Some resp' ->
  status_code resp' = 200%Z ->
  fromstring w (text resp') = Some parsed ->
  statistics_root w = Some (ET.strip_namespaces parsed).
Proof.
  intros Hreply Hcode Hreply' Hcode' Hparse. unfold statistics_root.
  rewrite Hreply, Hcode, Hreply', Hcode', Hparse. reflexivity.
Qed.

(** From the row loop on. *)
Lemma main_table_ending (w : World) (columns : list string)
  (row_nodes : list ET.Element) :
  statistics_table w = Some (columns, row_nodes) -> Ending w (main w).
Proof.
  intros Htable. rewrite (main_table _ _ _ Htable).
  destruct (records w columns row_nodes) as [|record rest] eqn:Hrows.
  - rewrite report_rows_empty. simpl. by eapply NobodyActive.
  - assert (Hne : records w columns row_nodes <> []) by (by rewrite Hrows).
    rewrite <- Hrows in *. rewrite (report_rows_nonempty _ _ Hne).
    destruct (reply w (store_request (environ w) (records w columns row_nodes)))
      as [resp|] eqn:Hreply.
    + destruct (store_rejects resp) eqn:Hrej.
      * rewrite (write_rows_rejected _ _ _ Hreply Hrej). simpl.
        by eapply StoreRejected.
      * rewrite (write_rows_accepted _ _ _ Hreply Hrej). simpl.
        by eapply Written.
    + rewrite (write_rows_fault _ _ Hreply). simpl. by eapply StoreFault.
Qed.

Theorem main_ending (w : World) : Ending w (main w).
Proof.
  destruct (reply w (session_request (environ w))) as [resp|] eqn:Hreply.
  2: { rewrite (main_session_fault _ Hreply). by constructor. }
  destruct (decide (status_code resp = 200%Z)) as [Hcode|Hcode].
  2: { rewrite (main_session_rejected _ _ Hreply Hcode). by constructor. }
  destruct (reply w (statistics_request (environ w))) as [resp'|] eqn:Hreply'.
  2: { rewrite (main_statistics_fault _ _ Hreply Hcode Hreply').
       by eapply StatisticsFault. }
  destruct (decide (status_code resp' = 200%Z)) as [Hcode'|Hcode'].
  2: { rewrite (main_statistics_rejected _ _ _ Hreply Hcode Hreply' Hcode').
       by eapply StatisticsRejected. }
  destruct (fromstring w (text resp')) as [parsed|] eqn:Hparse.
  2: { rewrite (main_parse_error _ _ _ Hreply Hcode Hreply' Hcode' Hparse).
       by eapply Unparsed. }
  pose proof (statistics_root_intro _ _ _ _ Hreply Hcode Hreply' Hcode' Hparse)
    as Hroot.
  destruct (ET.find_path "columns" "values" (ET.strip_namespaces parsed))
    as [columns_node|] eqn:Hfind.
  2: { rewrite (main_no_columns _ _ Hroot Hfind). by eapply NoColumns. }
  eapply main_table_ending. unfold statistics_table.
  rewrite Hroot, Hfind. reflexivity.
Qed.

(** The three requests of a run that reaches the store and gets an
    answer from it. *)
Lemma posted_store_answered (w : World) (columns : list string)
  (row_nodes : list ET.Element) (resp : Response) :
  statistics_table w = Some (columns, row_nodes) ->
  records w columns row_nodes <> [] ->
  reply w (store_request (environ w) (records w columns row_nodes))
  = Some resp ->
  posted (main w)
  = [session_request (environ w); statistics_request (environ w);
     store_request (environ w) (records w columns row_nodes)].
Proof.
  intros Htable Hrows Hreply.
  rewrite (main_table _ _ _ Htable), (report_rows_nonempty _ _ Hrows).
  destruct (store_rejects resp) eqn:Hrej.
  - by rewrite (write_rows_rejected _ _ _ Hreply Hrej).
  - by rewrite (write_rows_accepted _ _ _ Hreply Hrej).
Qed.

End RunCases.

(* ===================================================================== *)
(* 13. Facts about slices                                                *)
(* ===================================================================== *)

Module PyStrFacts.

Import PyStr Observe.

Lemma slice_to_length (n : nat) (s : string) :
  (String.length (slice_to n s) <= n)%nat.
Proof.
  revert s. induction n as [|n IH]; intros [|c s]; simpl; try lia.
  specialize (IH s). lia.
Qed.

Lemma slice_to_prefix (n : nat) (s : string) : prefix_of (slice_to n s) s.
Proof.
  revert s. induction n as [|n IH]; intros s.
  - exists s. reflexivity.
  - destruct s as [|c s].
    + exists EmptyString. reflexivity.
    + destruct (IH s) as [rest Hrest]. exists rest.
      change (String c s = String c (slice_to n s ++ rest)). congruence.
Qed.

End PyStrFacts.

(* ===================================================================== *)
(* 14. The run: exits, status lines and outbound calls                   *)
(* ===================================================================== *)

Module RunSpec.

Import PyStr Transformer Runtime Poll Observe Samples.
Import TransformerFacts LoopFacts RunFacts RunCases PyStrFacts.
Local Open Scope list_scope.

(** C3: when the statistics response yields no record (no row at all,
    or every row logged out), the run prints the "0 active agents"
    line, exits with status 0, and has posted nothing but the two SOAP
    calls: no request reaches the store. *)
Theorem empty_result_short_circuit
  (w : World) (columns : list string) (row_nodes : list ET.Element) :
  statistics_table w = Some (columns, row_nodes) ->
  records w columns row_nodes = [] ->
  snd (main w) = SystemExit 0
  /\ status (main w) = 0%Z
  /\ printed (main w) = ["OK: 0 active agents (all logged out)"]
  /\ posted (main w)
     = [session_request (environ w); statistics_request (environ w)]
  /\ (forall rows, store_request (environ w) rows ∉ posted (main w)).
Proof.
  intros Htable Hrows.
  rewrite (main_table _ _ _ Htable), Hrows, report_rows_empty.
  repeat split.
  intros rows Hin. unfold posted in Hin. simpl in Hin.
  apply elem_of_cons in Hin as [Heq | Hin]; [discriminate|].
  apply elem_of_cons in Hin as [Heq | Hin]; [discriminate|].
  by apply elem_of_nil in Hin.
Qed.

(** The row nodes of the empty floor, as main finds them. *)
Lemma empty_result_short_circuit_witness :
  statistics_table quiet_night
  = Some (three_columns,
          ET.findall_descendants "rows" (ET.strip_namespaces empty_floor))
  /\ records quiet_night three_columns
       (ET.findall_descendants "rows" (ET.strip_namespaces empty_floor)) = []
  /\ status (main quiet_night) = 0%Z
  /\ printed (main quiet_night) = ["OK: 0 active agents (all logged out)"].
Proof.
  assert (Htable : statistics_table quiet_night
                   = Some (three_columns,
                           ET.findall_descendants "rows"
                             (ET.strip_namespaces empty_floor)))
    by (vm_compute; reflexivity).
  assert (Hrows : records quiet_night three_columns
                    (ET.findall_descendants "rows"
                       (ET.strip_namespaces empty_floor)) = [])
    by (vm_compute; reflexivity).
  destruct (empty_result_short_circuit quiet_night _ _ Htable Hrows)
    as (_ & Hstatus & Hprinted & _).
  split; [exact Htable|]. split; [exact Hrows|].
  split; [exact Hstatus | exact Hprinted].
Defined.

(** Rows that are all logged out, or no rows at all, leave the record
    list empty. *)
Lemma all_logged_out_no_records
  (w : World) (columns : list string) (row_nodes : list ET.Element) :
  Forall (fun row_node => row_state columns row_node = Some "Logged Out")
    row_nodes ->
  records w columns row_nodes = [].
Proof.
  intros Hall. unfold records. rewrite row_loop_omap. simpl.
  induction Hall as [|row_node rest Hrow _ IH]; [reflexivity|].
  change (omap (row_record (utc_now w) columns) (row_node :: rest))
    with (match row_record (utc_now w) columns row_node with
          | Some record => record :: omap (row_record (utc_now w) columns) rest
          | None => omap (row_record (utc_now w) columns) rest
          end).
  destruct (row_record (utc_now w) columns row_node) as [record|] eqn:Hrec;
    [|exact IH].
  apply row_record_Some in Hrec as (values_node & Hfind & Hne & _).
  unfold row_state in Hrow. rewrite Hfind in Hrow. contradiction.
Qed.


(** A run that no exception cuts short makes exactly one print call,
    and its text starts with "OK: " or with "FAIL: "; a run that
    ends in an uncaught exception (a transport fault of one of the three
    calls, or a parse error) prints nothing. *)
Theorem one_status_line_unless_fault (w : World) :
  match snd (main w) with
  | Raised _ => printed (main w) = []
  | Returned _ | SystemExit _ =>
      exists line, printed (main w) = [line] /\ status_line line
  end.
Proof.
  destruct (main_ending w); unfold printed, status_line; simpl;
    try reflexivity; eexists; (split; [reflexivity|]); auto.
Qed.

(** C5: every record that a run sends to the store carries the same
    [snapshot_ts], the instant read once at the start of the run. *)
Theorem shared_snapshot_ts
  (w : World) (request : Request) (rows : list dict) (record : dict) :
  request ∈ posted (main w) ->
  payload request = Json rows ->
  record ∈ rows ->
  record !! "snapshot_ts" = Some (utc_now w).
Proof.
  intros Hposted Hpayload Hrecord.
  assert (Hrows : exists columns row_nodes, rows = records w columns row_nodes).
  { destruct (main_ending w); unfold posted in Hposted; simpl in Hposted;
      repeat (apply elem_of_cons in Hposted as [-> | Hposted];
              [first [discriminate Hpayload
                     | injection Hpayload as <-; by eauto] |]);
      by apply elem_of_nil in Hposted. }
  destruct Hrows as (columns & row_nodes & ->).
  apply elem_of_row_loop in Hrecord as (row_node & _ & Hrecord).
  apply row_record_Some in Hrecord as (values_node & _ & _ & ->).
  apply make_record_snapshot_ts.
Qed.

(** On the day shift the store receives two records, bob's and cy's,
    both stamped with the instant of the run. *)
Lemma shared_snapshot_ts_witness :
  store_request cfg (records day_shift three_columns
                       (ET.findall_descendants "rows"
                          (ET.strip_namespaces busy_floor)))
    ∈ posted (main day_shift)
  /\ Forall (fun record =>
               record !! "snapshot_ts" = Some "2026-01-01T00:00:00+00:00")
       (records day_shift three_columns
          (ET.findall_descendants "rows" (ET.strip_namespaces busy_floor)))
  /\ length (records day_shift three_columns
               (ET.findall_descendants "rows"
                  (ET.strip_namespaces busy_floor))) = 2%nat.
Proof.
  assert (Hposted :
    store_request cfg (records day_shift three_columns
                         (ET.findall_descendants "rows"
                            (ET.strip_namespaces busy_floor)))
      ∈ posted (main day_shift)).
  { assert (Htable : statistics_table day_shift
                     = Some (three_columns,
                             ET.findall_descendants "rows"
                               (ET.strip_namespaces busy_floor)))
      by (vm_compute; reflexivity).
    assert (Hrows : records day_shift three_columns
                      (ET.findall_descendants "rows"
                         (ET.strip_namespaces busy_floor)) <> []).
    { intros Hnil. apply (f_equal length) in Hnil.
      vm_compute in Hnil. discriminate. }
    rewrite (posted_store_answered day_shift _ _ (mkResponse 201 EmptyString)
               Htable Hrows eq_refl).
    do 2 apply list_elem_of_further. apply list_elem_of_here. }
  split; [exact Hposted|]. split; [|vm_compute; reflexivity].
  apply Forall_forall. intros record Hrecord.
  exact (shared_snapshot_ts day_shift _ _ record Hposted eq_refl Hrecord).
Defined.

(** C6: once a non-empty record list has been posted to the store and
    the store has answered, the run succeeds exactly when the answer is
    200 or 201.  It then returns (status 0) after printing the number of
    records; on any other answer it exits with status 1 after printing
    the status code and the first 300 characters of the response body.
    Either way the store gets one request, which carries all records. *)
Theorem store_write_outcome
  (w : World) (columns : list string) (row_nodes : list ET.Element)
  (resp : Response) :
  statistics_table w = Some (columns, row_nodes) ->
  records w columns row_nodes <> [] ->
  reply w (store_request (environ w) (records w columns row_nodes))
  = Some resp ->
  posted (main w)
  = [session_request (environ w); statistics_request (environ w);
     store_request (environ w) (records w columns row_nodes)]
  /\ (status (main w) = 0%Z
      <-> status_code resp = 200%Z \/ status_code resp = 201%Z)
  /\ (status_code resp = 200%Z \/ status_code resp = 201%Z ->
      snd (main w) = Returned tt
      /\ printed (main w)
         = [("OK: " ++ str_len (records w columns row_nodes)
               ++ " agents written | " ++ elapsed w ++ "s")%string])
  /\ (~ (status_code resp = 200%Z \/ status_code resp = 201%Z) ->
      snd (main w) = SystemExit 1
      /\ status (main w) = 1%Z
      /\ printed (main w)
         = [("FAIL: Supabase returned " ++ str_int (status_code resp)
               ++ ": " ++ slice_to 300 (text resp))%string])
  /\ (String.length (slice_to 300 (text resp)) <= 300)%nat
  /\ prefix_of (slice_to 300 (text resp)) (text resp).
Proof.
  intros Htable Hrows Hreply.
  assert (Hcodes : store_rejects resp = false
                   <-> status_code resp = 200%Z \/ status_code resp = 201%Z).
  { unfold store_rejects. rewrite negb_false_iff, orb_true_iff.
    by rewrite !Z.eqb_eq. }
  rewrite (main_table _ _ _ Htable), (report_rows_nonempty _ _ Hrows).
  destruct (store_rejects resp) eqn:Hrej.
  - rewrite (write_rows_rejected _ _ _ Hreply Hrej).
    assert (Hno : ~ (status_code resp = 200%Z \/ status_code resp = 201%Z))
      by (intros Hyes; apply Hcodes in Hyes; discriminate).
    split; [reflexivity|]. split; [|split; [|split; [|split]]].
    + split; [discriminate | contradiction].
    + contradiction.
    + intros _. repeat split.
    + apply slice_to_length.
    + apply slice_to_prefix.
  - rewrite (write_rows_accepted _ _ _ Hreply Hrej).
    assert (Hyes : status_code resp = 200%Z \/ status_code resp = 201%Z)
      by (by apply Hcodes).
    split; [reflexivity|]. split; [|split; [|split; [|split]]].
    + split; [intros _; exact Hyes | reflexivity].
    + intros _. repeat split.
    + contradiction.
    + apply slice_to_length.
    + apply slice_to_prefix.
Qed.

(** The store answers the day shift with 201: the run reports its two
    records. *)
Lemma store_write_outcome_witness :
  status (main day_shift) = 0%Z
  /\ printed (main day_shift) = ["OK: 2 agents written | 0.42s"]
  /\ status (main store_conflict) = 1%Z
  /\ printed (main store_conflict)
     = ["FAIL: Supabase returned 409: duplicate key"].
Proof.
  assert (Htable : forall store,
    statistics_table (world ok (Some busy_floor) store)
    = Some (three_columns,
            ET.findall_descendants "rows" (ET.strip_namespaces busy_floor)))
    by (intros store; vm_compute; reflexivity).
  assert (Hrows : forall store,
    records (world ok (Some busy_floor) store) three_columns
      (ET.findall_descendants "rows" (ET.strip_namespaces busy_floor)) <> []).
  { intros store Hnil. apply (f_equal length) in Hnil.
    vm_compute in Hnil. discriminate. }
  destruct (store_write_outcome day_shift _ _ (mkResponse 201 EmptyString)
              (Htable created) (Hrows created) eq_refl)
    as (_ & Hstatus & Hok & _).
  destruct (store_write_outcome store_conflict _ _
              (mkResponse 409 "duplicate key")
              (Htable conflict) (Hrows conflict) eq_refl)
    as (_ & _ & _ & Hfail & _).
  split; [apply Hstatus; right; reflexivity|].
  split; [exact (proj2 (Hok (or_intror eq_refl)))|].
  assert (Hno : ~ (status_code (mkResponse 409 "duplicate key") = 200%Z
                   \/ status_code (mkResponse 409 "duplicate key") = 201%Z))
    by (intros [H | H]; discriminate H).
  destruct (Hfail Hno) as (_ & Hstatus' & Hprinted').
  split; [exact Hstatus' | exact Hprinted'].
Defined.

(** C7: when the session call, or after it the statistics call, is
    answered with a status other than 200, the run prints a line that
    names the status and exits with status 1; the rejected call is the
    last request of the run. *)
Theorem upstream_rejection_fatal (w : World) :
  (forall resp,
     reply w (session_request (environ w)) = Some resp ->
     status_code resp <> 200%Z ->
     snd (main w) = SystemExit 1
     /\ status (main w) = 1%Z
     /\ printed (main w)
        = [("FAIL: Session setup returned "
              ++ str_int (status_code resp))%string]
     /\ posted (main w) = [session_request (environ w)])
  /\ (forall resp resp',
        reply w (session_request (environ w)) = Some resp ->
        status_code resp = 200%Z ->
        reply w (statistics_request (environ w)) = Some resp' ->
        status_code resp' <> 200%Z ->
        snd (main w) = SystemExit 1
        /\ status (main w) = 1%Z
        /\ printed (main w)
           = [("FAIL: getStatistics returned "
                 ++ str_int (status_code resp'))%string]
        /\ posted (main w)
           = [session_request (environ w); statistics_request (environ w)]).
Proof.
  split.
  - intros resp Hreply Hcode.
    rewrite (main_session_rejected _ _ Hreply Hcode). repeat split.
  - intros resp resp' Hreply Hcode Hreply' Hcode'.
    rewrite (main_statistics_rejected _ _ _ Hreply Hcode Hreply' Hcode').
    repeat split.
Qed.

(** Five9 answers 500 to the session call in one world, and 200 then
    500 in the other. *)
Lemma upstream_rejection_fatal_witness :
  (status (main session_refused) = 1%Z
   /\ printed (main session_refused) = ["FAIL: Session setup returned 500"]
   /\ posted (main session_refused) = [session_request cfg])
  /\ (status (main statistics_down) = 1%Z
      /\ printed (main statistics_down) = ["FAIL: getStatistics returned 500"]
      /\ posted (main statistics_down)
         = [session_request cfg; statistics_request cfg]).
Proof.
  split.
  - destruct (proj1 (upstream_rejection_fatal session_refused)
                (mkResponse 500 "oops") eq_refl)
      as (_ & Hstatus & Hprinted & Hposted); [discriminate|].
    split; [exact Hstatus|]. split; [exact Hprinted | exact Hposted].
  - destruct (proj2 (upstream_rejection_fatal statistics_down)
                (mkResponse 200 "<xml/>") (mkResponse 500 "oops")
                eq_refl eq_refl eq_refl)
      as (_ & Hstatus & Hprinted & Hposted); [discriminate|].
    split; [exact Hstatus|]. split; [exact Hprinted | exact Hposted].
Defined.

(** C8: when the parsed statistics response has no values node under a
    columns node, the run prints "FAIL: No columns in response" and
    leaves through [sys.exit(1)], not through an exception; it has
    posted the two SOAP calls and nothing to the store. *)
Theorem missing_columns_fatal (w : World) (root : ET.Element) :
  statistics_root w = Some root ->
  ET.find_path "columns" "values" root = None ->
  snd (main w) = SystemExit 1
  /\ status (main w) = 1%Z
  /\ printed (main w) = ["FAIL: No columns in response"]
  /\ posted (main w)
     = [session_request (environ w); statistics_request (environ w)]
  /\ (forall rows, store_request (environ w) rows ∉ posted (main w)).
Proof.
  intros Hroot Hfind. rewrite (main_no_columns _ _ Hroot Hfind).
  repeat split.
  intros rows Hin. unfold posted in Hin. simpl in Hin.
  apply elem_of_cons in Hin as [Heq | Hin]; [discriminate|].
  apply elem_of_cons in Hin as [Heq | Hin]; [discriminate|].
  by apply elem_of_nil in Hin.
Qed.

(** A response that holds a row but no column list. *)
Lemma missing_columns_fatal_witness :
  statistics_root headless = Some (ET.strip_namespaces no_header)
  /\ ET.find_path "columns" "values" (ET.strip_namespaces no_header) = None
  /\ status (main headless) = 1%Z
  /\ printed (main headless) = ["FAIL: No columns in response"].
Proof.
  assert (Hroot : statistics_root headless
                  = Some (ET.strip_namespaces no_header))
    by (vm_compute; reflexivity).
  assert (Hfind : ET.find_path "columns" "values"
                    (ET.strip_namespaces no_header) = None)
    by (vm_compute; reflexivity).
  destruct (missing_columns_fatal headless _ Hroot Hfind)
    as (_ & Hstatus & Hprinted & _).
  split; [exact Hroot|]. split; [exact Hfind|].
  split; [exact Hstatus | exact Hprinted].
Defined.

(** C9: a row node without a values child yields no record, and the
    rest of the run is what it would be without that row: the same
    records, hence the same requests, the same printed line and the
    same exit. *)
Theorem row_without_values_skipped
  (w : World) (snapshot_ts : string) (columns : list string)
  (before after : list ET.Element) (row_node : ET.Element) :
  ET.find "values" row_node = None ->
  row_record snapshot_ts columns row_node = None
  /\ row_loop snapshot_ts columns (before ++ row_node :: after) []
     = row_loop snapshot_ts columns (before ++ after) []
  /\ transform_and_write w snapshot_ts columns (before ++ row_node :: after)
     = transform_and_write w snapshot_ts columns (before ++ after).
Proof.
  intros Hfind.
  assert (Hskip : row_record snapshot_ts columns row_node = None)
    by (unfold row_record; by rewrite Hfind).
  assert (Hloop : row_loop snapshot_ts columns (before ++ row_node :: after) []
                  = row_loop snapshot_ts columns (before ++ after) []).
  { rewrite !row_loop_app. f_equal.
    change (row_loop snapshot_ts columns (row_node :: after) [])
      with (match row_record snapshot_ts columns row_node with
            | None => row_loop snapshot_ts columns after []
            | Some record => row_loop snapshot_ts columns after ([] ++ [record])
            end).
    by rewrite Hskip. }
  split; [exact Hskip|]. split; [exact Hloop|].
  unfold transform_and_write. by rewrite Hloop.
Qed.

(** The empty rows node of the busy floor, between bob's row and cy's. *)
Lemma row_without_values_skipped_witness :
  ET.find "values" (ET.Elem "rows" None []) = None
  /\ row_loop "T" three_columns
       [ET.strip_namespaces (row ["bob"; "Bob B"; "Ready"]);
        ET.Elem "rows" None []; short_row] []
     = row_loop "T" three_columns
         [ET.strip_namespaces (row ["bob"; "Bob B"; "Ready"]); short_row] [].
Proof.
  split; [reflexivity|].
  exact (proj1 (proj2
    (row_without_values_skipped day_shift "T" three_columns
       [ET.strip_namespaces (row ["bob"; "Bob B"; "Ready"])] [short_row]
       (ET.Elem "rows" None []) eq_refl))).
Defined.

End RunSpec.

(* ===================================================================== *)
(* 15. The element tree: stripping and lookups                           *)
(* ===================================================================== *)

Module TreeSpec.

Import PyStr Samples MoreSamples.
Local Open Scope list_scope.

(** Induction over an element with the property known of its children. *)
Lemma Element_children_ind (P : ET.Element -> Prop) :
  (forall t x cs, Forall P cs -> P (ET.Elem t x cs)) ->
  forall e, P e.
Proof.
  intros Hnode. fix IH 1. intros [t x cs]. apply Hnode.
  induction cs as [|c cs IHcs]; constructor; [apply IH | exact IHcs].
Qed.

Lemma filter_map_swap {A B} (f : B -> bool) (g : A -> B) (l : list A) :
  List.filter f (List.map g l) = List.map g (List.filter (fun a => f (g a)) l).
Proof.
  induction l as [|a l IH]; simpl; [reflexivity|].
  destruct (f (g a)); simpl; by rewrite IH.
Qed.

Lemma tag_strip (e : ET.Element) :
  ET.tag (ET.strip_namespaces e) = ET.local_name (ET.tag e).
Proof. by destruct e. Qed.

Lemma children_strip (e : ET.Element) :
  ET.children (ET.strip_namespaces e)
  = List.map ET.strip_namespaces (ET.children e).
Proof. by destruct e. Qed.

Lemma iter_strip_children (cs : list ET.Element) :
  Forall (fun c => ET.iter (ET.strip_namespaces c)
                   = List.map ET.strip_namespaces (ET.iter c)) cs ->
  flat_map ET.iter (List.map ET.strip_namespaces cs)
  = List.map ET.strip_namespaces (flat_map ET.iter cs).
Proof.
  induction 1 as [|c cs Hc _ IH]; simpl; [reflexivity|].
  by rewrite Hc, IH, List.map_app.
Qed.

Lemma iter_strip (e : ET.Element) :
  ET.iter (ET.strip_namespaces e) = List.map ET.strip_namespaces (ET.iter e).
Proof.
  induction e as [t x cs IH] using Element_children_ind. simpl.
  by rewrite (iter_strip_children _ IH).
Qed.

(** X1: a tag loses everything up to and including its first closing
    brace, whatever stands before it; what follows the brace is kept as
    it is, further braces included. *)
Theorem local_name_drops_qualifier (qualifier name : string) :
  after_brace qualifier = None ->
  ET.local_name (qualifier ++ "}" ++ name)%string = name.
Proof.
  intros Hfree. unfold ET.local_name.
  assert (Hafter : after_brace (qualifier ++ "}" ++ name)%string = Some name).
  { induction qualifier as [|c qualifier IH]; simpl in *; [reflexivity|].
    destruct (Ascii.eqb c "}"); [discriminate | by apply IH]. }
  by rewrite Hafter.
Qed.

(** The tag of a Five9 row node. *)
Lemma local_name_drops_qualifier_witness :
  after_brace five9_qualifier = None
  /\ ET.local_name "{http://service.supervisor.ws.five9.com/}rows" = "rows".
Proof.
  split; [reflexivity|].
  exact (local_name_drops_qualifier five9_qualifier "rows" eq_refl).
Defined.

(** X2: stripping the tags changes neither the order nor the number of
    the nodes that a traversal meets, and keeps the text of each. *)
Theorem strip_keeps_traversal (e : ET.Element) :
  ET.iter (ET.strip_namespaces e) = List.map ET.strip_namespaces (ET.iter e)
  /\ length (ET.iter (ET.strip_namespaces e)) = length (ET.iter e)
  /\ List.map ET.text (ET.iter (ET.strip_namespaces e))
     = List.map ET.text (ET.iter e).
Proof.
  split; [apply iter_strip|]. rewrite iter_strip. split.
  - apply List.length_map.
  - rewrite List.map_map. apply List.map_ext. by intros [t x cs].
Qed.

(** X3: after the tags are stripped, a lookup by bare name finds the
    descendants whose local name it is, whatever namespace qualified
    them, in document order. *)
Theorem lookup_by_local_name (name : string) (root : ET.Element) :
  ET.findall_descendants name (ET.strip_namespaces root)
  = List.map ET.strip_namespaces
      (List.filter (fun c => String.eqb (ET.local_name (ET.tag c)) name)
         (flat_map ET.iter (ET.children root))).
Proof.
  unfold ET.findall_descendants. rewrite children_strip.
  rewrite iter_strip_children.
  - rewrite filter_map_swap. f_equal. apply List.filter_ext.
    intros c. by rewrite tag_strip.
  - apply Forall_forall. intros c _. apply iter_strip.
Qed.

(** X4: the column list is read from the first columns node that has a
    values child; columns nodes before it that have none are passed
    over. *)
Theorem find_path_first_match
  (outer inner : string) (root : ET.Element)
  (skipped rest : list ET.Element) (c v : ET.Element) :
  ET.findall_descendants outer root = skipped ++ c :: rest ->
  Forall (fun s => ET.find inner s = None) skipped ->
  ET.find inner c = Some v ->
  ET.find_path outer inner root = Some v.
Proof.
  intros Hfound Hskipped Hfind. unfold ET.find_path. rewrite Hfound.
  rewrite List.flat_map_app.
  assert (Hnone : flat_map (ET.findall inner) skipped = []).
  { clear Hfound.
    induction Hskipped as [|s skipped Hs _ IH]; simpl; [reflexivity|].
    rewrite IH. unfold ET.find in Hs.
    destruct (ET.findall inner s); [reflexivity | discriminate]. }
  rewrite Hnone. simpl. unfold ET.find in Hfind.
  destruct (ET.findall inner c); [discriminate | exact Hfind].
Qed.

(** An empty columns node before the real one. *)
Lemma find_path_first_match_witness :
  ET.findall_descendants "columns" (ET.strip_namespaces late_header)
  = [ET.Elem "columns" None []] ++ ET.strip_namespaces header :: []
  /\ ET.find_path "columns" "values" (ET.strip_namespaces late_header)
     = Some (ET.strip_namespaces (values three_columns)).
Proof.
  assert (Hfound :
    ET.findall_descendants "columns" (ET.strip_namespaces late_header)
    = [ET.Elem "columns" None []] ++ ET.strip_namespaces header :: [])
    by (vm_compute; reflexivity).
  split; [exact Hfound|].
  apply (find_path_first_match "columns" "values" _ _ _ _ _ Hfound).
  - constructor; [reflexivity | constructor].
  - reflexivity.
Defined.

(** X5: the lookup of the column list fails exactly when no columns
    node has a values child: a response without any columns node, or
    with columns nodes that are all empty. *)
Theorem find_path_none (outer inner : string) (root : ET.Element) :
  ET.find_path outer inner root = None <->
  Forall (fun c => ET.find inner c = None)
    (ET.findall_descendants outer root).
Proof.
  unfold ET.find_path.
  induction (ET.findall_descendants outer root) as [|c cs IH]; simpl.
  - split; [constructor | reflexivity].
  - unfold ET.find at 1. destruct (ET.findall inner c) as [|v vs] eqn:Hc; simpl.
    + rewrite IH. split.
      * intros Hcs. constructor; [unfold ET.find; by rewrite Hc | exact Hcs].
      * intros Hall. by apply Forall_inv_tail in Hall.
    + split; [discriminate|].
      intros Hall. apply Forall_inv in Hall. unfold ET.find in Hall.
      rewrite Hc in Hall. discriminate.
Qed.

End TreeSpec.

(* ===================================================================== *)
(* 16. Dicts, records and the loop: edge cases                           *)
(* ===================================================================== *)

Module RecordSpec.

Import PyStr Transformer Observe Samples MoreSamples TransformerFacts LoopFacts.
Local Open Scope list_scope.

(** A key of the zipped pairs names a column that has a value. *)
Lemma zip_key_position (columns values : list string) (k : string) :
  k ∈ (zip columns values).*1 ->
  exists j, columns !! j = Some k /\ (j < length values)%nat.
Proof.
  intros Hk. apply list_elem_of_fmap in Hk as [[k' v'] [-> Hin]].
  apply list_elem_of_lookup in Hin as [j Hj].
  apply lookup_zip_with_Some in Hj as (x & y & [= -> ->] & Hx & Hy).
  exists j. split; [exact Hx | by eapply lookup_lt_Some].
Qed.

Lemma fold_zip_last (columns values : list string) (m : dict)
  (i : nat) (k v : string) :
  columns !! i = Some k -> values !! i = Some v ->
  (forall j, (i < j)%nat -> (j < length values)%nat -> columns !! j <> Some k) ->
  fold_left (fun m kv => <[kv.1 := kv.2]> m) (zip columns values) m !! k
  = Some v.
Proof.
  revert values m i.
  induction columns as [|c columns IH]; intros values m i Hi Hv Hlast.
  - discriminate.
  - destruct values as [|v0 values]; [discriminate|]. simpl.
    destruct i as [|i]; simpl in *.
    + injection Hi as ->. injection Hv as ->.
      rewrite fold_insert_other; [apply lookup_insert_eq|].
      intros Hin. apply zip_key_position in Hin as (j & Hj & Hlt).
      apply (Hlast (S j)); [lia | lia | exact Hj].
    + apply (IH values _ i Hi Hv). intros j Hij Hlt.
      apply (Hlast (S j)); lia.
Qed.

(** X6: when a column name occurs more than once in the header, the
    value kept under it is the one paired with its last occurrence that
    still has a value. *)
Theorem repeated_column_last_wins
  (columns values : list string) (i : nat) (k v : string) :
  columns !! i = Some k ->
  values !! i = Some v ->
  (forall j, (i < j)%nat -> (j < length values)%nat -> columns !! j <> Some k) ->
  dict_zip columns values !! k = Some v
  /\ get_or_empty (dict_zip columns values) k = v.
Proof.
  intros Hi Hv Hlast.
  assert (Hk : dict_zip columns values !! k = Some v)
    by (unfold dict_zip, dict_of_pairs; by eapply fold_zip_last).
  split; [exact Hk|]. unfold get_or_empty. by rewrite Hk.
Qed.

(** State named at both ends of the header: the second value is kept. *)
Lemma repeated_column_last_wins_witness :
  twice_state !! 2%nat = Some "State"
  /\ ["Ready"; "bob"; "Logged Out"] !! 2%nat = Some "Logged Out"
  /\ dict_zip twice_state ["Ready"; "bob"; "Logged Out"] !! "State"
     = Some "Logged Out".
Proof.
  split; [reflexivity|]. split; [reflexivity|].
  refine (proj1 (repeated_column_last_wins twice_state
                   ["Ready"; "bob"; "Logged Out"] 2 "State" "Logged Out"
                   eq_refl eq_refl _)).
  intros j Hij Hlt. simpl in Hlt. lia.
Defined.

(** X7: a record depends on the row only through the nine columns that
    main reads: rows that agree on them get the same record, or are
    both dropped, whatever other columns they carry. *)
Theorem unknown_columns_ignored
  (snapshot_ts : string) (columns1 values1 columns2 values2 : list string) :
  (forall field column,
     (field, column) ∈ field_columns ->
     dict_zip columns1 values1 !! column = dict_zip columns2 values2 !! column) ->
  record_of_values snapshot_ts columns1 values1
  = record_of_values snapshot_ts columns2 values2.
Proof.
  intros Hagree.
  assert (Hget : forall field column,
            (field, column) ∈ field_columns ->
            get_or_empty (dict_zip columns1 values1) column
            = get_or_empty (dict_zip columns2 values2) column).
  { intros field column Hin. unfold get_or_empty. by rewrite (Hagree field column). }
  unfold record_of_values, logged_out.
  rewrite (Hagree "state" "State") by (unfold field_columns; set_solver).
  case_bool_decide; [reflexivity|]. f_equal.
  unfold make_record. f_equal. rewrite !record_items_by_column. f_equal.
  apply List.map_ext_in. intros [field column] Hin. simpl. f_equal.
  apply (Hget field). by apply list_elem_of_In.
Qed.

(** bob's row with and without a Skill column. *)
Lemma unknown_columns_ignored_witness :
  record_of_values "T" four_columns ["bob"; "Bob B"; "Ready"; "sales"]
  = record_of_values "T" three_columns ["bob"; "Bob B"; "Ready"].
Proof.
  apply unknown_columns_ignored.
  intros field column Hin. unfold field_columns in Hin.
  repeat (apply elem_of_cons in Hin as [[= -> ->] | Hin];
          [vm_compute; reflexivity |]).
  by apply elem_of_nil in Hin.
Defined.

(** X8: the loop leaves the records it already holds in place and adds
    the new ones behind them in row order, at most one per row. *)
Theorem row_loop_in_row_order
  (snapshot_ts : string) (columns : list string)
  (row_nodes : list ET.Element) (rows : list dict) :
  row_loop snapshot_ts columns row_nodes rows
  = rows ++ omap (row_record snapshot_ts columns) row_nodes
  /\ (length (row_loop snapshot_ts columns row_nodes rows)
      <= length rows + length row_nodes)%nat.
Proof.
  split; [apply row_loop_omap|].
  rewrite row_loop_omap, length_app. apply Nat.add_le_mono_l.
  induction row_nodes as [|row_node rest IH]; [reflexivity|].
  change (omap (row_record snapshot_ts columns) (row_node :: rest))
    with (match row_record snapshot_ts columns row_node with
          | Some record => record :: omap (row_record snapshot_ts columns) rest
          | None => omap (row_record snapshot_ts columns) rest
          end).
  destruct (row_record snapshot_ts columns row_node); simpl; lia.
Qed.

(** X9: [s[:n]] has the length of [s] or [n], whichever is smaller, and
    is all of [s] when [s] has at most [n] characters: a short response
    body is printed whole. *)
Theorem slice_to_whole_or_cut (n : nat) (s : string) :
  String.length (slice_to n s) = Nat.min n (String.length s)
  /\ ((String.length s <= n)%nat -> slice_to n s = s).
Proof.
  split.
  - revert s. induction n as [|n IH]; intros [|c s]; simpl; try reflexivity.
    by rewrite IH.
  - revert s. induction n as [|n IH]; intros [|c s] Hlen; simpl in *;
      try reflexivity; try lia.
    rewrite IH; [reflexivity | lia].
Qed.

End RecordSpec.

(* ===================================================================== *)
(* 17. The trace of a run                                                *)
(* ===================================================================== *)

Module TraceSpec.

Import PyStr Transformer Runtime Poll Observe Samples MoreSamples.
Import TransformerFacts LoopFacts RunFacts RunCases.
Local Open Scope list_scope.

(** A request with a JSON body is the write of the records, made last,
    after a table was read that gave at least one record. *)
Lemma posted_json_records (w : World) (request : Request) (rows : list dict) :
  request ∈ posted (main w) ->
  payload request = Json rows ->
  exists columns row_nodes,
    statistics_table w = Some (columns, row_nodes)
    /\ rows = records w columns row_nodes
    /\ rows <> []
    /\ request = store_request (environ w) rows
    /\ last (posted (main w)) = Some request.
Proof.
  intros Hposted Hpayload.
  destruct (main_ending w); unfold posted in *; simpl in *;
    repeat (apply elem_of_cons in Hposted as [-> | Hposted];
            [first [discriminate Hpayload
                   | injection Hpayload as <-; by eauto 10] |]);
    by apply elem_of_nil in Hposted.
Qed.

Ltac not_an_ok_line :=
  let line := fresh "line" in
  let Heq := fresh "Heq" in
  let Hok := fresh "Hok" in
  intros (line & Heq & Hok);
  first [ discriminate Heq
        | injection Heq as <-; simpl in Hok; discriminate Hok ].

(** X10: the exit status is 0 or 1, and it is 0 exactly when the run
    printed one line and that line starts with "OK: ". *)
Theorem exit_status_matches_line (w : World) :
  (status (main w) = 0%Z \/ status (main w) = 1%Z)
  /\ (status (main w) = 0%Z <->
      exists line, printed (main w) = [line]
                   /\ startswith "OK: " line = true).
Proof.
  destruct (main_ending w); unfold status, printed; simpl;
    first [ split; [left; reflexivity|];
            split; [intros _; eexists; split; reflexivity | reflexivity]
          | split; [right; reflexivity|];
            split; [discriminate | not_an_ok_line] ].
Qed.

(** X11: the requests of a run are the first one, two or three of the
    session call, the statistics call and the write to the store, in
    that order and each at most once; the session call is always made,
    and every request has a timeout of 30. *)
Theorem requests_in_fixed_order (w : World) :
  head (posted (main w)) = Some (session_request (environ w))
  /\ (exists rows,
        prefix (posted (main w))
          [session_request (environ w); statistics_request (environ w);
           store_request (environ w) rows])
  /\ Forall (fun request => timeout request = 30%Z) (posted (main w)).
Proof.
  destruct (main_ending w); unfold posted; simpl;
    (split; [reflexivity|]);
    (split; [|by repeat constructor]);
    first [ exists []; eexists; reflexivity
          | eexists; eexists; reflexivity ].
Qed.

(** X12: a request with a JSON body is the write to the store: it
    carries at least one record, it is the store request over its rows
    (no basic-auth credentials, the key in the headers), and it is the
    last request of the run. *)
Theorem json_request_is_store_write
  (w : World) (request : Request) (rows : list dict) :
  request ∈ posted (main w) ->
  payload request = Json rows ->
  rows <> []
  /\ request = store_request (environ w) rows
  /\ auth request = None
  /\ last (posted (main w)) = Some request.
Proof.
  intros Hposted Hpayload.
  destruct (posted_json_records _ _ _ Hposted Hpayload)
    as (columns & row_nodes & _ & _ & Hne & -> & Hlast).
  repeat split; assumption.
Qed.

(** X13: every record that reaches the store has the same ten keys,
    each holding a string. *)
Theorem posted_records_have_ten_keys
  (w : World) (request : Request) (rows : list dict) (record : dict) :
  request ∈ posted (main w) ->
  payload request = Json rows ->
  record ∈ rows ->
  dom record = list_to_set record_keys
  /\ (forall key, key ∈ record_keys -> is_Some (record !! key)).
Proof.
  intros Hposted Hpayload Hrecord.
  destruct (posted_json_records _ _ _ Hposted Hpayload)
    as (columns & row_nodes & _ & -> & _).
  apply elem_of_row_loop in Hrecord as (row_node & _ & Hrecord).
  apply row_record_Some in Hrecord as (values_node & _ & _ & ->).
  assert (Hdom : dom (make_record (utc_now w)
                        (dict_zip columns
                           (ET.texts (ET.findall "data" values_node))))
                 = list_to_set record_keys) by apply make_record_keys.
  split; [exact Hdom|].
  intros key Hkey. apply elem_of_dom. rewrite Hdom.
  by apply elem_of_list_to_set.
Qed.

(** X14: when the body of the statistics response does not parse, the
    exception leaves main: nothing is printed, nothing is sent to the
    store, and the interpreter exits with status 1. *)
Theorem parse_error_uncaught (w : World) (resp resp' : Response) :
  reply w (session_request (environ w)) = Some resp ->
  status_code resp = 200%Z ->
  reply w (statistics_request (environ w)) = Some resp' ->
  status_code resp' = 200%Z ->
  fromstring w (text resp') = None ->
  snd (main w) = Raised ParseError
  /\ status (main w) = 1%Z
  /\ printed (main w) = []
  /\ posted (main w)
     = [session_request (environ w); statistics_request (environ w)].
Proof.
  intros Hreply Hcode Hreply' Hcode' Hparse.
  rewrite (main_parse_error _ _ _ Hreply Hcode Hreply' Hcode' Hparse).
  repeat split.
Qed.

(** X15: when the write to the store raises, [requests.post] had been
    called with the records (whether anything reached the store is not
    known), no line is printed, and the interpreter exits with status
    1: the exit status is the only sign of the failure. *)
Theorem store_fault_uncaught
  (w : World) (columns : list string) (row_nodes : list ET.Element) :
  statistics_table w = Some (columns, row_nodes) ->
  records w columns row_nodes <> [] ->
  reply w (store_request (environ w) (records w columns row_nodes)) = None ->
  snd (main w) = Raised TransportFault
  /\ status (main w) = 1%Z
  /\ printed (main w) = []
  /\ posted (main w)
     = [session_request (environ w); statistics_request (environ w);
        store_request (environ w) (records w columns row_nodes)].
Proof.
  intros Htable Hrows Hreply.
  rewrite (main_table _ _ _ Htable), (report_rows_nonempty _ _ Hrows),
    (write_rows_fault _ _ Hreply).
  repeat split.
Qed.

(** The busy floor, whatever the store answers: its table, and the
    write of its records when the store answers at all. *)
Lemma busy_floor_table (store : option Response) :
  statistics_table (world ok (Some busy_floor) store)
  = Some (three_columns,
          ET.findall_descendants "rows" (ET.strip_namespaces busy_floor)).
Proof. vm_compute. reflexivity. Qed.

Lemma busy_floor_records (store : option Response) :
  records (world ok (Some busy_floor) store) three_columns
    (ET.findall_descendants "rows" (ET.strip_namespaces busy_floor)) <> [].
Proof.
  intros Hnil. apply (f_equal length) in Hnil. vm_compute in Hnil. discriminate.
Qed.

Lemma day_shift_write_posted :
  store_request cfg
    (records day_shift three_columns
       (ET.findall_descendants "rows" (ET.strip_namespaces busy_floor)))
    ∈ posted (main day_shift).
Proof.
  rewrite (posted_store_answered day_shift _ _ (mkResponse 201 EmptyString)
             (busy_floor_table created) (busy_floor_records created) eq_refl).
  do 2 apply list_elem_of_further. apply list_elem_of_here.
Qed.

(** The write of the day shift. *)
Lemma json_request_is_store_write_witness :
  store_request cfg
    (records day_shift three_columns
       (ET.findall_descendants "rows" (ET.strip_namespaces busy_floor)))
    ∈ posted (main day_shift)
  /\ last (posted (main day_shift))
     = Some (store_request cfg
               (records day_shift three_columns
                  (ET.findall_descendants "rows"
                     (ET.strip_namespaces busy_floor)))).
Proof.
  split; [exact day_shift_write_posted|].
  exact (proj2 (proj2 (proj2
    (json_request_is_store_write day_shift _ _
       day_shift_write_posted eq_refl)))).
Defined.

(** The records of the day shift. *)
Lemma posted_records_have_ten_keys_witness :
  Forall (fun record => dom record =@{gset string} list_to_set record_keys)
    (records day_shift three_columns
       (ET.findall_descendants "rows" (ET.strip_namespaces busy_floor))).
Proof.
  apply Forall_forall. intros record Hrecord.
  exact (proj1 (posted_records_have_ten_keys day_shift _ _ record
                  day_shift_write_posted eq_refl Hrecord)).
Defined.

(** Five9 answers 200 twice with a body that is not XML. *)
Lemma parse_error_uncaught_witness :
  fromstring garbled "<xml/>" = None
  /\ status (main garbled) = 1%Z
  /\ printed (main garbled) = []
  /\ posted (main garbled) = [session_request cfg; statistics_request cfg].
Proof.
  split; [reflexivity|].
  exact (proj2 (parse_error_uncaught garbled (mkResponse 200 "<xml/>")
                  (mkResponse 200 "<xml/>") eq_refl eq_refl eq_refl eq_refl
                  eq_refl)).
Defined.

(** The busy floor with the store out of reach. *)
Lemma store_fault_uncaught_witness :
  snd (main store_down) = Raised TransportFault
  /\ status (main store_down) = 1%Z
  /\ printed (main store_down) = [].
Proof.
  destruct (store_fault_uncaught store_down _ _
              (busy_floor_table None) (busy_floor_records None) eq_refl)
    as (Hend & Hstatus & Hprinted & _).
  split; [exact Hend|]. split; [exact Hstatus | exact Hprinted].
Defined.

End TraceSpec.

(* ===================================================================== *)
(* 18. Pairing by name: headers with repeated names                      *)
(* ===================================================================== *)

Module PairingSpec.

Import PyStr Transformer Observe Samples MoreSamples.
Import TransformerFacts LoopFacts RecordSpec.
Local Open Scope list_scope.

(** A name that labels no column among those that got a value is not a
    key of the agent dict. *)
Lemma dict_zip_unpaired (columns values : list string) (k : string) :
  k ∉ take (length values) columns ->
  dict_zip columns values !! k = None.
Proof.
  intros Hk. unfold dict_zip, dict_of_pairs.
  rewrite fold_insert_other; [apply lookup_empty|].
  intros Hin. apply zip_key_position in Hin as (j & Hj & Hlt).
  apply Hk. apply list_elem_of_lookup. exists j.
  by rewrite lookup_take_lt.
Qed.

(** C2, as the claim has it, fails: under the header
    [State, Username, State] the row [Ready, bob] has no value for the
    third entry, yet the record does not read that entry as empty: its
    state is the value paired with the first entry of the same name. *)
Lemma repeated_header_entry_keeps_value :
  ~ (forall i field column record,
       twice_state !! i = Some column ->
       (length ["Ready"; "bob"] <= i)%nat ->
       (field, column) ∈ field_columns ->
       record_of_values "T" twice_state ["Ready"; "bob"] = Some record ->
       record !! field = Some EmptyString).
Proof.
  intros Hclaim.
  assert (Hfield : ("state", "State") ∈ field_columns)
    by (unfold field_columns; set_solver).
  specialize (Hclaim 2%nat "state" "State"
                (make_record "T" (dict_zip twice_state ["Ready"; "bob"]))
                eq_refl (le_n 2) Hfield eq_refl).
  vm_compute in Hclaim. discriminate.
Qed.

(** C2 (amended): the values of a row are paired with the header by
    index, a name keeping the value of its last entry that has one; a
    header entry whose name labels no entry with a value reads as the
    empty string.  With distinct names this is pairing by index with
    the empty string past the end of the values.  The record has
    exactly its ten keys, each field holding what the agent dict gives
    for its column. *)
Theorem header_row_pairing_by_name
  (snapshot_ts : string) (columns values : list string) (record : dict) :
  record_of_values snapshot_ts columns values = Some record ->
  (forall i column v,
     columns !! i = Some column ->
     values !! i = Some v ->
     (forall j, (i < j)%nat -> (j < length values)%nat ->
                columns !! j <> Some column) ->
     get_or_empty (dict_zip columns values) column = v)
  /\ (forall column,
        column ∉ take (length values) columns ->
        get_or_empty (dict_zip columns values) column = EmptyString)
  /\ (NoDup columns ->
      forall i column,
        columns !! i = Some column ->
        get_or_empty (dict_zip columns values) column
        = default EmptyString (values !! i))
  /\ dom record = list_to_set record_keys
  /\ (forall field column,
        (field, column) ∈ field_columns ->
        record !! field
        = Some (get_or_empty (dict_zip columns values) column)).
Proof.
  intros Hrec. unfold record_of_values in Hrec.
  destruct (logged_out _); [discriminate|]. injection Hrec as <-.
  split; [|split; [|split; [|split]]].
  - intros i column v Hi Hv Hlast. unfold get_or_empty, dict_zip, dict_of_pairs.
    by rewrite (fold_zip_last _ _ _ i column v).
  - intros column Hnot. unfold get_or_empty.
    by rewrite dict_zip_unpaired.
  - intros Hnd i column Hi. unfold get_or_empty.
    by rewrite (dict_zip_lookup _ _ i).
  - apply make_record_keys.
  - intros field column Hfc. by apply make_record_field.
Qed.

(** [cy, Cy C] under Username, Full Name, State: the two values go to
    the first two fields, the state is empty. *)
Lemma header_row_pairing_by_name_witness :
  record_of_values "T" three_columns ["cy"; "Cy C"]
  = Some (make_record "T" (dict_zip three_columns ["cy"; "Cy C"]))
  /\ make_record "T" (dict_zip three_columns ["cy"; "Cy C"]) !! "username"
     = Some "cy"
  /\ make_record "T" (dict_zip three_columns ["cy"; "Cy C"]) !! "full_name"
     = Some "Cy C"
  /\ make_record "T" (dict_zip three_columns ["cy"; "Cy C"]) !! "state"
     = Some EmptyString.
Proof.
  assert (Hrec : record_of_values "T" three_columns ["cy"; "Cy C"]
                 = Some (make_record "T" (dict_zip three_columns ["cy"; "Cy C"])))
    by reflexivity.
  destruct (header_row_pairing_by_name "T" three_columns ["cy"; "Cy C"] _ Hrec)
    as (Hpaired & Hempty & _ & _ & Hfield).
  split; [exact Hrec|]. split; [|split].
  - rewrite (Hfield "username" "Username") by (unfold field_columns; set_solver).
    rewrite (Hpaired 0%nat "Username" "cy" eq_refl eq_refl); [reflexivity|].
    intros [|[|j]] Hij Hlt; simpl in *; try lia; discriminate.
  - rewrite (Hfield "full_name" "Full Name") by (unfold field_columns; set_solver).
    rewrite (Hpaired 1%nat "Full Name" "Cy C" eq_refl eq_refl); [reflexivity|].
    intros [|[|j]] Hij Hlt; simpl in *; lia.
  - rewrite (Hfield "state" "State") by (unfold field_columns; set_solver).
    rewrite (Hempty "State"); [reflexivity|]. simpl. intros Hin.
    repeat (apply elem_of_cons in Hin as [Heq | Hin]; [discriminate Heq|]).
    by apply elem_of_nil in Hin.
Defined.

End PairingSpec.

(* ===================================================================== *)
(* 19. The lines of the status output                                    *)
(* ===================================================================== *)

Module OutputSpec.

Import PyStr Transformer Runtime Poll Observe Samples Stdout.
Import RunFacts RunCases.
Local Open Scope list_scope.









(** The store refuses with a body of two lines: the one print call
    leaves two lines on standard output. *)
Lemma two_line_conflict_output :
  stdout_lines (printed (main two_line_conflict)) = 2%nat
  /\ length (printed (main two_line_conflict)) = 1%nat.
Proof. split; vm_compute; reflexivity. Qed.

End OutputSpec.
